(** * Watchtower monitoring core: a shallow embedding in Rocq

    Embeds the pure parts of
    - [watchtower/monitoring/alert_kpis.py]  (KPIMonitor.calculate_kpis,
      KPIMonitor.check_kpi_thresholds),
    - [watchtower/monitoring/drift.py]       (DriftDetector.detect_statistical_drift,
      DriftDetector.detect_concept_drift),
    - [watchtower/monitoring/coverage.py]    (CoverageMonitor.calculate_coverage),
    - [watchtower/api/routes/playbooks.py]   (the action loop of execute_playbook).

    Python floats are modelled by exact rationals [Q]; Python's [round(x, k)]
    and the [:.3f] format are modelled by round-half-to-even on the exact value,
    which is what CPython does on the binary value of the float.  The database
    queries are modelled by the rows they return. *)

From Stdlib Require Import ZArith QArith Qround Qabs Lqa Psatz Lia List Bool String Ascii.
Import ListNotations.

Open Scope Q_scope.
Open Scope string_scope.

(** ** Python values, dictionaries and exceptions *)

(** A value stored in one of the returned dictionaries. *)
Inductive pyval :=
| VInt (z : Z)
| VFloat (q : Q)
| VBool (b : bool)
| VStr (s : string).

(** A dictionary literal with distinct keys, in insertion order. *)
Definition pydict := list (string * pyval).

Fixpoint dict_get (k : string) (d : pydict) : option pyval :=
  match d with
  | [] => None
  | (k', v) :: d' => if String.eqb k k' then Some v else dict_get k d'
  end.

(** Exceptions the modelled code could signal. *)
Inductive py_exc :=
| InsufficientDataError
| TypeError.

(** The outcome of a Python call: a return value or a raised exception. *)
Inductive py_result (A : Type) :=
| PyOk (a : A)
| PyRaise (e : py_exc).
Arguments PyOk {A} a.
Arguments PyRaise {A} e.

Definition is_raise {A} (r : py_result A) : bool :=
  match r with PyOk _ => false | PyRaise _ => true end.

(** ** Numeric helpers *)

Definition Qltb (x y : Q) : bool := negb (Qle_bool y x).

(** Round half to even to an integer. *)
Definition round_half_even (x : Q) : Z :=
  let f := Qfloor x in
  let r := x - inject_Z f in
  if Qltb r (1 # 2) then f
  else if Qltb (1 # 2) r then (f + 1)%Z
  else if Z.even f then f else (f + 1)%Z.

(** [round(x, k)] with [p = 10^k]. *)
Definition round_places (p : positive) (x : Q) : Q :=
  round_half_even (x * inject_Z (Zpos p)) # p.

Definition round2 := round_places 100.
Definition round4 := round_places 10000.

(** [max(m, x)] / [np.max]: [x] when it exceeds [m]. *)
Definition qmax (m x : Q) : Q := if Qltb m x then x else m.

(** [a / b] of two Python ints, as a float. *)
Definition zdiv (a b : Z) : Q := inject_Z a / inject_Z b.

(** ** KPIMonitor.calculate_kpis *)

(** One row of the join of [transactions] and [model_predictions]:
    [is_fraud] and [prediction] are 0/1 columns, read here as booleans. *)
Record outcome_row := mk_row {
  actual : bool;
  predicted : bool;
  probability : Q
}.

Definition count_rows (p : outcome_row -> bool) (rows : list outcome_row) : Z :=
  Z.of_nat (List.length (filter p rows)).

(** The body of [calculate_kpis] after the query; an empty result returns [{}]. *)
Definition calculate_kpis (rows : list outcome_row) : py_result pydict :=
  match rows with
  | [] => PyOk []
  | _ =>
    let total_samples := Z.of_nat (List.length rows) in
    let correct_predictions :=
      count_rows (fun r => Bool.eqb (actual r) (predicted r)) rows in
    let tp := count_rows (fun r => actual r && predicted r) rows in
    let fp := count_rows (fun r => negb (actual r) && predicted r) rows in
    let tn := count_rows (fun r => negb (actual r) && negb (predicted r)) rows in
    let fn := count_rows (fun r => actual r && negb (predicted r)) rows in
    let accuracy :=
      if (0 <? total_samples)%Z then zdiv correct_predictions total_samples else 0 in
    let precision := if (0 <? tp + fp)%Z then zdiv tp (tp + fp) else 0 in
    let recall := if (0 <? tp + fn)%Z then zdiv tp (tp + fn) else 0 in
    let f1_score :=
      if Qltb 0 (precision + recall)
      then 2 * (precision * recall) / (precision + recall) else 0 in
    let false_positive_rate := if (0 <? fp + tn)%Z then zdiv fp (fp + tn) else 0 in
    let false_negative_rate := if (0 <? fn + tp)%Z then zdiv fn (fn + tp) else 0 in
    let auc_score := 85 # 100 in
    PyOk [("accuracy", VFloat (round4 accuracy));
          ("precision", VFloat (round4 precision));
          ("recall", VFloat (round4 recall));
          ("f1_score", VFloat (round4 f1_score));
          ("auc_score", VFloat (round4 auc_score));
          ("false_positive_rate", VFloat (round4 false_positive_rate));
          ("false_negative_rate", VFloat (round4 false_negative_rate));
          ("total_samples", VInt total_samples)]
  end.

(** Confusion-matrix counts, as the spec names them. *)
Definition TP rows := count_rows (fun r => actual r && predicted r) rows.
Definition FP rows := count_rows (fun r => negb (actual r) && predicted r) rows.
Definition TN rows := count_rows (fun r => negb (actual r) && negb (predicted r)) rows.
Definition FN rows := count_rows (fun r => actual r && negb (predicted r)) rows.

Definition four_rows : list outcome_row :=
  [mk_row true true (9 # 10); mk_row false false (1 # 10);
   mk_row true false (4 # 10); mk_row false true (6 # 10)].

Definition get_float (k : string) (r : py_result pydict) : option Q :=
  match r with
  | PyOk d => match dict_get k d with Some (VFloat q) => Some q | _ => None end
  | PyRaise _ => None
  end.

(** ** KPIMonitor.check_kpi_thresholds *)

Record thresholds := mk_thresholds {
  t_min : Q;
  t_max : Q;
  t_critical : Q
}.

(** [self.alert_thresholds] as set in [KPIMonitor.__init__]. *)
Definition alert_thresholds : list (string * thresholds) :=
  [("accuracy", mk_thresholds (85 # 100) 1 (80 # 100));
   ("precision", mk_thresholds (80 # 100) 1 (75 # 100));
   ("recall", mk_thresholds (75 # 100) 1 (70 # 100));
   ("f1_score", mk_thresholds (80 # 100) 1 (75 # 100));
   ("auc_score", mk_thresholds (85 # 100) 1 (80 # 100));
   ("false_positive_rate", mk_thresholds 0 (1 # 10) (15 # 100));
   ("false_negative_rate", mk_thresholds 0 (2 # 10) (25 # 100))].

Fixpoint table_get (k : string) (t : list (string * thresholds)) : option thresholds :=
  match t with
  | [] => None
  | (k', v) :: t' => if String.eqb k k' then Some v else table_get k t'
  end.

(** The status/severity decision of the loop body. *)
Definition classify (value : Q) (th : thresholds) : string * string :=
  if Qltb value (t_critical th) then ("critical", "high")
  else if Qltb value (t_min th) then ("warning", "medium")
  else if Qltb (t_max th) value then ("warning", "medium")
  else ("healthy", "low").

(** *** The [:.3f] format *)

Definition digit_char (d : Z) : ascii := ascii_of_nat (48 + Z.to_nat d).

(** Decimal digits of [n >= 0], most significant first, before [acc]. *)
Fixpoint z_digits (fuel : nat) (n : Z) (acc : string) : string :=
  match fuel with
  | O => acc
  | S f =>
    let acc' := String (digit_char (n mod 10)) acc in
    if (n <? 10)%Z then acc' else z_digits f (n / 10) acc'
  end.

Definition z_to_decimal (n : Z) : string :=
  z_digits (S (Z.to_nat (Z.log2 n))) n "".

(** Exactly three digits of [r], with [0 <= r < 1000]. *)
Definition three_digits (r : Z) : string :=
  String (digit_char (r / 100)) (String (digit_char ((r / 10) mod 10))
    (String (digit_char (r mod 10)) "")).

(** [2^e] for an integer [e]. *)
Definition pow2 (e : Z) : Q := Qpower (2 # 1) e.

(** [floor(log2 x)] for [x > 0]: with [a = Qnum x] and [b = Qden x],
    [x] lies in [(2^(k-1), 2^(k+1))] for [k = log2 a - log2 b]. *)
Definition qlog2_floor (x : Q) : Z :=
  let k := (Z.log2 (Qnum x) - Z.log2 (Zpos (Qden x)))%Z in
  if Qle_bool (pow2 k) x then k else (k - 1)%Z.

(** The Python float (IEEE 754 double) holding the number [x >= 0]: the
    nearest double, ties to even, with a 53-bit significand and subnormals
    below [2^-1022]; [None] when it rounds to infinity.  A number of the
    model stands for the float the program holds: [round(v, 4)] returns the
    double nearest to the rounded decimal, a threshold literal such as
    [0.85] is the double nearest to 0.85. *)
Definition double_of (x : Q) : option Q :=
  if Qeq_bool x 0 then Some 0 else
  let e := Z.max (qlog2_floor x - 52) (-1074) in
  let d := inject_Z (round_half_even (x * pow2 (- e))) * pow2 e in
  if Qle_bool (pow2 1024) d then None else Some d.

(** [f"{q:.3f}"]: the exact binary value of the float, rounded half to even
    to three places; a negative number (also one whose float is [-0.0])
    keeps its sign, an overflowing one prints [inf]. *)
Definition fmt3 (q : Q) : string :=
  (if Qltb q 0 then "-" else "") ++
  match double_of (Qabs q) with
  | Some d =>
    let n := round_half_even (d * 1000) in
    z_to_decimal (n / 1000) ++ "." ++ three_digits (n mod 1000)
  | None => "inf"
  end.

(** *** Alerts *)

(** An alert dictionary (its [timestamp] field, [datetime.now()], is left out). *)
Record alert := mk_alert {
  metric_name : string;
  current_value : Q;
  threshold_min : Q;
  threshold_max : Q;
  threshold_critical : Q;
  status : string;
  severity : string;
  message : string
}.

Definition alert_message (metric : string) (st : string) (value : Q) (th : thresholds) : string :=
  metric ++ " is " ++ st ++ ": " ++ fmt3 value ++ " (threshold: " ++
  fmt3 (t_min th) ++ "-" ++ fmt3 (t_max th) ++ ")".

(** The loop over [kpis.items()], against a thresholds table. *)
Fixpoint check_kpi_thresholds (table : list (string * thresholds))
    (kpis : list (string * Q)) : list alert :=
  match kpis with
  | [] => []
  | (metric, value) :: rest =>
    match table_get metric table with
    | None => check_kpi_thresholds table rest
    | Some th =>
      let '(st, sev) := classify value th in
      if negb (String.eqb st "healthy") then
        mk_alert metric value (t_min th) (t_max th) (t_critical th) st sev
          (alert_message metric st value th)
          :: check_kpi_thresholds table rest
      else check_kpi_thresholds table rest
    end
  end.

Fixpoint all_digits (s : string) : bool :=
  match s with
  | EmptyString => true
  | String c s' =>
    let n := nat_of_ascii c in (Nat.leb 48 n && Nat.leb n 57) && all_digits s'
  end.

(** ** DriftDetector.detect_statistical_drift *)

(** Empirical distribution function of a sample at [x]
    ([searchsorted(sorted(s), x, side='right') / len(s)]). *)
Definition ecdf (s : list Q) (x : Q) : Q :=
  zdiv (Z.of_nat (List.length (filter (fun y => Qle_bool y x) s))) (Z.of_nat (List.length s)).

(** The two-sided statistic of [scipy.stats.ks_2samp]: the largest distance
    between the two empirical distribution functions over the pooled data. *)
Definition ks_statistic (b c : list Q) : Q :=
  fold_left (fun m x => qmax m (Qabs (ecdf b x - ecdf c x))) (app b c) 0.

Section StatisticalDrift.

(** [settings.drift_threshold] (0.1 by default). *)
Variable drift_threshold : Q.
(** The p-value of [scipy.stats.ks_2samp], a library computation outside the
    repository. *)
Variable ks_pvalue : list Q -> list Q -> Q.

(** The [amount] columns of the two frames; an empty frame is an empty list. *)
Definition detect_statistical_drift (baseline current : list Q) (feature_name : string)
    : py_result pydict :=
  match baseline, current with
  | [], _ | _, [] =>
    PyOk [("drift_score", VFloat 0); ("p_value", VFloat 1);
          ("drift_detected", VBool false); ("drift_type", VStr "insufficient_data")]
  | _, _ =>
    let ks := ks_statistic baseline current in
    let p_value := ks_pvalue baseline current in
    let drift_score := ks in
    let drift_detected := Qltb p_value (5 # 100) && Qltb drift_threshold drift_score in
    let severity :=
      if Qltb (3 # 10) drift_score then "high"
      else if Qltb (15 # 100) drift_score then "medium" else "low" in
    PyOk [("drift_score", VFloat (round4 drift_score));
          ("p_value", VFloat (round4 p_value));
          ("drift_detected", VBool drift_detected);
          ("drift_type", VStr "statistical");
          ("severity", VStr severity);
          ("feature_name", VStr feature_name)]
  end.

End StatisticalDrift.

(** ** DriftDetector.detect_concept_drift *)

(** [np.mean] of a non-empty list. *)
Definition mean (l : list Q) : Q :=
  fold_left Qplus l 0 / inject_Z (Z.of_nat (List.length l)).

Definition last_q (l : list Q) : Q := last l 0.

(** [l[-k:]] and [l[:-k]]. *)
Definition take_last (k : nat) (l : list Q) : list Q := skipn (List.length l - k) l.
Definition drop_last (k : nat) (l : list Q) : list Q := firstn (List.length l - k) l.

(** The rows of the hourly query, [(total_predictions, correct_predictions)],
    ordered by hour. *)
Definition bucket_accuracies (rows : list (Z * Z)) : list Q :=
  map (fun r => zdiv (snd r) (fst r)) (filter (fun r => (0 <? fst r)%Z) rows).

Definition concept_no_drift : pydict :=
  [("drift_score", VFloat 0); ("p_value", VFloat 1);
   ("drift_detected", VBool false); ("drift_type", VStr "concept")].

Definition detect_concept_drift (feature_name : string) (rows : list (Z * Z))
    : py_result pydict :=
  match rows with
  | [] => PyOk concept_no_drift
  | _ =>
    let accuracies := bucket_accuracies rows in
    let n := List.length accuracies in
    if Nat.ltb n 2 then PyOk concept_no_drift
    else
      let recent_accuracy :=
        if Nat.leb 4 n then mean (take_last 4 accuracies) else last_q accuracies in
      let baseline_accuracy :=
        if Nat.leb 8 n then mean (drop_last 4 accuracies) else mean accuracies in
      let accuracy_drop := baseline_accuracy - recent_accuracy in
      let drift_score := qmax 0 accuracy_drop in
      let drift_detected := Qltb (5 # 100) accuracy_drop in
      PyOk [("drift_score", VFloat (round4 drift_score));
            ("p_value", VFloat (if drift_detected then 1 # 100 else 1 # 2));
            ("drift_detected", VBool drift_detected);
            ("drift_type", VStr "concept");
            ("severity", VStr (if Qltb (1 # 10) accuracy_drop then "high"
                               else if Qltb (5 # 100) accuracy_drop then "medium"
                               else "low"));
            ("feature_name", VStr feature_name);
            ("baseline_accuracy", VFloat (round4 baseline_accuracy));
            ("recent_accuracy", VFloat (round4 recent_accuracy))]
  end.


(** ** CoverageMonitor.calculate_coverage *)

(** One row of [transactions LEFT JOIN model_predictions]: [is_fraud], and
    [prediction] ([None] for SQL NULL when no prediction matched). *)
Record join_row := mk_jrow {
  is_fraud : Z;
  prediction : option Z
}.

Definition case_fraud (r : join_row) : Z := if (is_fraud r =? 1)%Z then 1 else 0.
Definition case_predicted (r : join_row) : Z :=
  match prediction r with Some p => if (p =? 1)%Z then 1 else 0 | None => 0 end.

(** [SUM(...)] is NULL on no rows. *)
Definition sql_sum (f : join_row -> Z) (rows : list join_row) : option Z :=
  match rows with
  | [] => None
  | _ => Some (fold_right (fun r acc => (f r + acc)%Z) 0%Z rows)
  end.

(** The single row returned by the aggregate query. *)
Definition coverage_query (rows : list join_row) : Z * option Z * option Z :=
  (Z.of_nat (List.length rows), sql_sum case_fraud rows, sql_sum case_predicted rows).

Definition calculate_coverage (risk_category : string) (time_window_hours : Z)
    (rows : list join_row) : py_result pydict :=
  let '(total_transactions, fraud_o, predicted_o) := coverage_query rows in
  if (total_transactions =? 0)%Z then
    PyOk [("coverage_percentage", VFloat 0); ("total_samples", VInt 0);
          ("covered_samples", VInt 0); ("gap_count", VInt 0)]
  else
    match fraud_o, predicted_o with
    | Some fraud_transactions, Some predicted_fraud =>
      let coverage_pct :=
        if (0 <? fraud_transactions)%Z
        then zdiv predicted_fraud fraud_transactions * 100 else 0 in
      let gap_count := (fraud_transactions - predicted_fraud)%Z in
      PyOk [("coverage_percentage", VFloat (round2 coverage_pct));
            ("total_samples", VInt total_transactions);
            ("covered_samples", VInt predicted_fraud);
            ("gap_count", VInt gap_count);
            ("risk_category", VStr risk_category);
            ("time_window_hours", VInt time_window_hours)]
    | _, _ => PyRaise TypeError
    end.


(** ** execute_playbook: the action loop *)

Record action_result := mk_result {
  ar_action : string;
  ar_status : string;
  ar_detail : string
}.

Record execution := mk_execution {
  ex_status : string;
  ex_actions_executed : list action_result;
  ex_execution_log : list string
}.

Section Playbook.

(** The body of the [try] block for one action: [None] when it completes,
    [Some e] when it raises [e].  The repository's body only builds the result
    dictionary: [source_action_body] below. *)
Variable action_body : string -> option string.

Fixpoint run_actions (actions : list string) : list action_result * list string :=
  match actions with
  | [] => ([], [])
  | a :: rest =>
    let '(results, log) := run_actions rest in
    match action_body a with
    | None =>
      (mk_result a "success" ("Action " ++ a ++ " executed successfully") :: results,
       ("✅ " ++ a ++ ": Success") :: log)
    | Some e =>
      (mk_result a "failed" e :: results,
       ("❌ " ++ a ++ ": Failed - " ++ e) :: log)
    end
  end.

(** The record after the loop, when [status] is updated. *)
Definition execute_playbook (actions : list string) : execution :=
  let '(results, log) := run_actions actions in
  mk_execution "completed" results log.

End Playbook.

Definition source_action_body (_ : string) : option string := None.

(** The result entry and the log line of one action. *)
Definition action_entry (body : string -> option string) (a : string) : action_result :=
  match body a with
  | None => mk_result a "success" ("Action " ++ a ++ " executed successfully")
  | Some e => mk_result a "failed" e
  end.

Definition action_log_line (body : string -> option string) (a : string) : string :=
  match body a with
  | None => "✅ " ++ a ++ ": Success"
  | Some e => "❌ " ++ a ++ ": Failed - " ++ e
  end.

(** ** The KPI pipeline around the evaluator *)

(** An exception escaping a route or an orchestration step: a FastAPI
    [HTTPException(status_code, detail)], a [KeyError] on a missing key, a
    [TypeError] or [AttributeError] with its message, a division by zero, or
    the error a database call raises, with its message. *)
Inductive raised :=
| HTTPException (status_code : Z) (detail : string)
| KeyError (key : string)
| PyTypeError (detail : string)
| ZeroDivisionError
| PyAttributeError (detail : string)
| DbError (detail : string).

Inductive outcome (A : Type) :=
| Ret (a : A)
| Exn (e : raised).
Arguments Ret {A} a.
Arguments Exn {A} e.

(** [str(e)]: Starlette renders an HTTPException as ["<code>: <detail>"],
    a KeyError as the quoted key. *)
Definition exc_str (e : raised) : string :=
  match e with
  | HTTPException code detail => z_to_decimal code ++ ": " ++ detail
  | KeyError k => "'" ++ k ++ "'"
  | PyTypeError detail => detail
  | ZeroDivisionError => "division by zero"
  | PyAttributeError detail => detail
  | DbError detail => detail
  end.

Definition obind {A B} (m : outcome A) (f : A -> outcome B) : outcome B :=
  match m with Ret a => f a | Exn e => Exn e end.

Notation "'let?' x ':=' m 'in' k" := (obind m (fun x => k))
  (at level 200, x name, m at level 100, k at level 200).

(** [d[k]]. *)
Definition dict_lookup (k : string) (d : pydict) : outcome pyval :=
  match dict_get k d with Some v => Ret v | None => Exn (KeyError k) end.

(** A dictionary value used as a number against a float: ints and bools
    compare as numbers, a string raises. *)
Definition py_num (v : pyval) : outcome Q :=
  match v with
  | VInt z => Ret (inject_Z z)
  | VFloat q => Ret q
  | VBool b => Ret (if b then 1 else 0)
  | VStr _ => Exn (PyTypeError "'<' not supported between instances of 'str' and 'float'")
  end.

(** The [except Exception as e: raise HTTPException(status_code=500,
    detail=str(e))] wrapper every route body sits in. *)
Definition route_guard {A} (body : outcome A) : outcome A :=
  match body with
  | Ret a => Ret a
  | Exn e => Exn (HTTPException 500 (exc_str e))
  end.

(** The dictionary handed to [check_kpi_thresholds]: its numbers, the int
    [total_samples] as a number too (it is never looked up in the table). *)
Definition kpi_values (d : pydict) : list (string * Q) :=
  map (fun kv => match snd kv with
                 | VInt z => (fst kv, inject_Z z)
                 | VFloat q => (fst kv, q)
                 | _ => (fst kv, 0)
                 end) d.

(** [send_alert]: the e-mail and webhook handlers only build a message and
    log it, so the [try] block completes and the call returns [True]. *)
Definition send_alert (_ : alert) : bool := true.

(** One row of the [kpis] table. *)
Record kpi_row := mk_kpi_row {
  kr_metric_name : string;
  kr_metric_value : Q;
  kr_threshold_min : option Q;
  kr_threshold_max : option Q;
  kr_status : string
}.

(** [store_kpi_metrics]: the rows of its INSERTs, one per item, thresholds
    by [.get] (NULL for a metric outside the table), status always
    ['healthy']. *)
Definition store_kpi_metrics (kpis : list (string * Q)) : list kpi_row :=
  map (fun kv =>
         let th := table_get (fst kv) alert_thresholds in
         mk_kpi_row (fst kv) (snd kv) (option_map t_min th) (option_map t_max th) "healthy")
      kpis.

(** The database writes.  [ins r] is what [conn.execute] does on the INSERT
    of the row [r]: [None] when the database accepts it, [Some e] when the
    call raises [e].  The tables the repository creates declare
    [id INTEGER PRIMARY KEY] without a default, which these INSERTs leave
    out, so there every one of them raises a NOT NULL constraint error. *)
Fixpoint insert_rows {R} (ins : R -> option raised) (rows : list R) : outcome unit :=
  match rows with
  | [] => Ret tt
  | r :: rs => match ins r with Some e => Exn e | None => insert_rows ins rs end
  end.

Record kpi_summary := mk_kpi_summary {
  kpis_calculated : nat;
  alerts_generated : nat;
  alerts_sent : nat;
  summary_kpis : pydict;
  summary_alerts : list alert
}.

(** [monitor_kpis] on the rows of the window, [ins] the INSERTs into [kpis]:
    [inl] is the returned [{'error': ...}] dictionary, [inr] the summary
    (timestamps left out). *)
Definition monitor_kpis (ins : kpi_row -> option raised) (rows : list outcome_row)
    : string + kpi_summary :=
  match calculate_kpis rows with
  | PyRaise e => inl "calculation failed"
  | PyOk kpis =>
    match kpis with
    | [] => inl "No KPI data available"
    | _ =>
      let alerts := check_kpi_thresholds alert_thresholds (kpi_values kpis) in
      match insert_rows ins (store_kpi_metrics (kpi_values kpis)) with
      | Exn e => inl (exc_str e)
      | Ret _ =>
        let sent := map send_alert alerts in
        inr (mk_kpi_summary (List.length kpis) (List.length alerts)
               (List.length (filter (fun b => b) sent)) kpis alerts)
      end
    end
  end.

Definition count_status (st : string) (rows : list kpi_row) : Z :=
  Z.of_nat (List.length (filter (fun r => String.eqb (kr_status r) st) rows)).

(** The totals of the [/kpis/summary] route: the per-metric groups' SUMs
    added up over all groups, i.e. counted over all rows of the window. *)
Record kpi_health := mk_kpi_health {
  overall_health : string;
  total_measurements : Z;
  critical_alerts : Z;
  warning_alerts : Z;
  healthy_metrics : Z
}.

Definition get_kpi_summary (rows : list kpi_row) : kpi_health :=
  let total_critical := count_status "critical" rows in
  let total_warning := count_status "warning" rows in
  let total_healthy := count_status "healthy" rows in
  let overall :=
    if (0 <? total_critical)%Z then "critical"
    else if (0 <? total_warning)%Z then "warning" else "healthy" in
  mk_kpi_health overall (Z.of_nat (List.length rows)) total_critical total_warning total_healthy.

(** The [/kpis/calculate] route on the rows of the window, [ins] the
    INSERTs of [store_kpi_metrics] (its result dictionary as the KPIs and
    the alerts). *)
Definition route_calculate_kpis (ins : kpi_row -> option raised) (rows : list outcome_row)
    : outcome (pydict * list alert) :=
  route_guard
    match calculate_kpis rows with
    | PyRaise _ => Exn (HTTPException 500 "calculation failed")
    | PyOk [] => Exn (HTTPException 404 "No data available for KPI calculation")
    | PyOk kpis =>
      let alerts := check_kpi_thresholds alert_thresholds (kpi_values kpis) in
      let? _ := insert_rows ins (store_kpi_metrics (kpi_values kpis)) in
      Ret (kpis, alerts)
    end.

(** ** CoverageMonitor: categories, gaps and the monitoring run *)

(** The [TypeError] of [calculate_coverage] ([None > 0] on NULL sums). *)
Definition of_py {A} (r : py_result A) : outcome A :=
  match r with
  | PyOk a => Ret a
  | PyRaise TypeError =>
      Exn (PyTypeError "'>' not supported between instances of 'NoneType' and 'int'")
  | PyRaise InsufficientDataError => Exn (PyTypeError "insufficient data")
  end.

Definition risk_categories : list string :=
  ["money_laundering"; "terrorist_financing"; "sanctions_evasion"; "fraud"].

(** [get_coverage_by_category]: [calculate_coverage] for each category, in
    order, over the same window. *)
Fixpoint coverage_loop (time_window_hours : Z) (rows : list join_row)
    (categories : list string) : outcome (list pydict) :=
  match categories with
  | [] => Ret []
  | c :: cs =>
    let? d := of_py (calculate_coverage c time_window_hours rows) in
    let? ds := coverage_loop time_window_hours rows cs in
    Ret (d :: ds)
  end.

Definition get_coverage_by_category (time_window_hours : Z) (rows : list join_row)
    : outcome (list pydict) :=
  coverage_loop time_window_hours rows risk_categories.

(** [settings.coverage_threshold * 100]. *)
Definition coverage_threshold_pct : Q := 95.

(** [threshold or settings.coverage_threshold * 100]: [None] and [0.0] are
    falsy. *)
Definition effective_threshold (threshold : option Q) : Q :=
  match threshold with
  | Some t => if Qeq_bool t 0 then coverage_threshold_pct else t
  | None => coverage_threshold_pct
  end.

Record coverage_gap := mk_gap {
  gap_risk_category : pyval;
  current_coverage : Q;
  gap_threshold : Q;
  gap_size : Q;
  priority : string
}.

(** The loop of [identify_coverage_gaps] over the coverage dictionaries. *)
Fixpoint gaps_of (threshold : Q) (data : list pydict) : outcome (list coverage_gap) :=
  match data with
  | [] => Ret []
  | d :: rest =>
    let? cv := dict_lookup "coverage_percentage" d in
    let? c := py_num cv in
    if Qltb c threshold then
      let? rc := dict_lookup "risk_category" d in
      let? gs := gaps_of threshold rest in
      Ret (mk_gap rc c threshold (threshold - c)
             (if Qltb c (threshold * (8 # 10)) then "high" else "medium") :: gs)
    else gaps_of threshold rest
  end.

Definition identify_coverage_gaps (threshold : option Q) (rows : list join_row)
    : outcome (list coverage_gap) :=
  let t := effective_threshold threshold in
  let? coverage_data := get_coverage_by_category 24 rows in
  gaps_of t coverage_data.

(** One row of [risk_coverage] written by [store_coverage_metrics]. *)
Record coverage_row := mk_cov_row {
  cr_risk_category : pyval;
  cr_coverage_percentage : pyval;
  cr_total_samples : pyval;
  cr_covered_samples : pyval
}.

(** [store_coverage_metrics]: the parameters are read first (a missing key
    raises KeyError), then [ins] is the INSERT. *)
Definition store_coverage_metrics (ins : coverage_row -> option raised) (d : pydict)
    : outcome coverage_row :=
  let? rc := dict_lookup "risk_category" d in
  let? cp := dict_lookup "coverage_percentage" d in
  let? ts := dict_lookup "total_samples" d in
  let? cs := dict_lookup "covered_samples" d in
  let row := mk_cov_row rc cp ts cs in
  match ins row with
  | Some e => Exn e
  | None => Ret row
  end.

Fixpoint store_all (ins : coverage_row -> option raised) (data : list pydict)
    : outcome (list coverage_row) :=
  match data with
  | [] => Ret []
  | d :: rest =>
    let? r := store_coverage_metrics ins d in
    let? rs := store_all ins rest in
    Ret (r :: rs)
  end.

(** [sum(d['coverage_percentage'] for d in coverage_data)]. *)
Fixpoint sum_coverage (data : list pydict) : outcome Q :=
  match data with
  | [] => Ret 0
  | d :: rest =>
    let? cv := dict_lookup "coverage_percentage" d in
    let? c := py_num cv in
    let? s := sum_coverage rest in
    Ret (c + s)
  end.

Record coverage_summary := mk_cov_summary {
  total_categories : nat;
  categories_below_threshold : nat;
  average_coverage : Q;
  cs_gaps : list coverage_gap;
  cs_coverage_data : list pydict;
  cs_stored : list coverage_row
}.

(** [monitor_coverage] over the default 24-hour window, [ins] the INSERTs
    into [risk_coverage]: [inl] is the [{'error': str(e)}] dictionary. *)
Definition monitor_coverage (ins : coverage_row -> option raised) (rows : list join_row)
    : string + coverage_summary :=
  let run :=
    let? coverage_data := get_coverage_by_category 24 rows in
    let? gaps := identify_coverage_gaps None rows in
    let? stored := store_all ins coverage_data in
    let? total := sum_coverage coverage_data in
    if Nat.eqb (List.length coverage_data) 0 then Exn ZeroDivisionError
    else Ret (mk_cov_summary (List.length coverage_data) (List.length gaps)
                (total / inject_Z (Z.of_nat (List.length coverage_data)))
                gaps coverage_data stored) in
  match run with
  | Ret s => inr s
  | Exn e => inl (exc_str e)
  end.

(** ** DriftDetector: covariate drift, storage and the monitoring run *)

(** [d[k] = v]: an existing key keeps its place, a new one goes last. *)
Fixpoint dict_set (k : string) (v : pyval) (d : pydict) : pydict :=
  match d with
  | [] => [(k, v)]
  | (k', v') :: d' => if String.eqb k k' then (k', v) :: d' else (k', v') :: dict_set k v d'
  end.

(** [d.get(k, default)]. *)
Definition dict_get_default (k : string) (default : pyval) (d : pydict) : pyval :=
  match dict_get k d with Some v => v | None => default end.

(** Python truthiness of a dictionary value. *)
Definition py_truthy (v : pyval) : bool :=
  match v with
  | VInt z => negb (z =? 0)%Z
  | VFloat q => negb (Qeq_bool q 0)
  | VBool b => b
  | VStr s => negb (String.eqb s "")
  end.

Definition covariate_no_drift : pydict :=
  [("drift_score", VFloat 0); ("p_value", VFloat 1);
   ("drift_detected", VBool false); ("drift_type", VStr "covariate")].

(** One row of [drift_detection] written by [store_drift_metrics]. *)
Record drift_row := mk_drift_row {
  dr_feature_name : pyval;
  dr_drift_score : pyval;
  dr_p_value : pyval;
  dr_drift_detected : pyval;
  dr_drift_type : pyval;
  dr_severity : pyval
}.

(** [store_drift_metrics]: the parameters are read first (a missing key
    raises KeyError), then [ins] is the INSERT.  Besides the missing id
    default of the repository's tables, the detectors' [drift_detected] is a
    numpy bool wherever a [feature_name] is present, which the DuckDB
    parameter conversion refuses: on the repository's database every such
    INSERT raises. *)
Definition store_drift_metrics (ins : drift_row -> option raised) (drift_data : pydict)
    : outcome drift_row :=
  let? fnm := dict_lookup "feature_name" drift_data in
  let? ds := dict_lookup "drift_score" drift_data in
  let? pv := dict_lookup "p_value" drift_data in
  let? dd := dict_lookup "drift_detected" drift_data in
  let row := mk_drift_row fnm ds pv dd
               (dict_get_default "drift_type" (VStr "unknown") drift_data)
               (dict_get_default "severity" (VStr "low") drift_data) in
  match ins row with
  | Some e => Exn e
  | None => Ret row
  end.

Definition drift_features : list string :=
  ["transaction_amount"; "transaction_frequency"; "user_behavior_score"].

(** [sum(1 for d in drift_results if d['drift_detected'])]. *)
Fixpoint count_detected (results : list pydict) : outcome nat :=
  match results with
  | [] => Ret 0%nat
  | d :: rest =>
    let? v := dict_lookup "drift_detected" d in
    let? n := count_detected rest in
    Ret (if py_truthy v then S n else n)
  end.

(** [d.get('severity') == 'high']. *)
Definition is_high (d : pydict) : bool :=
  match dict_get "severity" d with Some (VStr s) => String.eqb s "high" | _ => false end.

Record drift_summary := mk_drift_summary {
  features_monitored : nat;
  total_drift_events : nat;
  high_severity_events : nat;
  drift_results : list pydict;
  drift_stored : list drift_row
}.

Section DriftMonitoring.

Variable drift_threshold : Q.
Variable ks_pvalue : list Q -> list Q -> Q.
(** The INSERTs into [drift_detection]. *)
Variable ins : drift_row -> option raised.

(** [detect_covariate_drift]: the [amount] columns of the 30-day baseline
    and of the current window. *)
Definition detect_covariate_drift (baseline current : list Q) (feature_name : string)
    : py_result pydict :=
  match current with
  | [] => PyOk covariate_no_drift
  | _ =>
    match detect_statistical_drift drift_threshold ks_pvalue baseline current feature_name with
    | PyOk r => PyOk (dict_set "drift_type" (VStr "covariate") r)
    | PyRaise e => PyRaise e
    end
  end.

(** The loop of [monitor_drift] over the features: the hourly accuracy rows
    and the two samples are the same for every feature. *)
Fixpoint drift_loop (rows : list (Z * Z)) (baseline current : list Q)
    (features : list string) : outcome (list pydict * list drift_row) :=
  match features with
  | [] => Ret ([], [])
  | f :: fs =>
    let? concept := of_py (detect_concept_drift f rows) in
    let? covariate := of_py (detect_covariate_drift baseline current f) in
    let? s1 := store_drift_metrics ins concept in
    let? s2 := store_drift_metrics ins covariate in
    let? rest := drift_loop rows baseline current fs in
    Ret (concept :: covariate :: fst rest, s1 :: s2 :: snd rest)
  end.

(** [monitor_drift]: [inl] is the [{'error': str(e)}] dictionary. *)
Definition monitor_drift (rows : list (Z * Z)) (baseline current : list Q)
    : string + drift_summary :=
  let run :=
    let? res := drift_loop rows baseline current drift_features in
    let? total := count_detected (fst res) in
    Ret (mk_drift_summary (List.length drift_features) total
           (List.length (filter is_high (fst res))) (fst res) (snd res)) in
  match run with
  | Ret s => inr s
  | Exn e => inl (exc_str e)
  end.

End DriftMonitoring.

(** ** Playbook routes *)

(** A YAML value as [yaml.safe_load] returns it. *)
#[warnings="-register-all"]
Inductive yval :=
| YNull
| YBool (b : bool)
| YInt (z : Z)
| YFloat (q : Q)
| YStr (s : string)
| YList (l : list yval)
| YMap (m : list (string * yval)).

(** A playbook: a YAML mapping. *)
Definition yobj := list (string * yval).

Fixpoint ymap_get (k : string) (m : yobj) : option yval :=
  match m with
  | [] => None
  | (k', v) :: m' => if String.eqb k k' then Some v else ymap_get k m'
  end.

(** [p[k] = v]: an existing key keeps its place, a new one goes last. *)
Fixpoint ymap_set (k : string) (v : yval) (m : yobj) : yobj :=
  match m with
  | [] => [(k, v)]
  | (k', v') :: m' => if String.eqb k k' then (k', v) :: m' else (k', v') :: ymap_set k v m'
  end.

Definition ymap_get_default (k : string) (default : yval) (m : yobj) : yval :=
  match ymap_get k m with Some v => v | None => default end.

Definition ytruthy (v : yval) : bool :=
  match v with
  | YNull => false
  | YBool b => b
  | YInt z => negb (z =? 0)%Z
  | YFloat q => negb (Qeq_bool q 0)
  | YStr s => negb (String.eqb s "")
  | YList l => match l with [] => false | _ => true end
  | YMap m => match m with [] => false | _ => true end
  end.

(** [p.get('id') == playbook_id] for an int [playbook_id]: bools and floats
    compare as numbers. *)
Definition yeq_int (v : option yval) (n : Z) : bool :=
  match v with
  | Some (YInt z) => (z =? n)%Z
  | Some (YBool b) => ((if b then 1 else 0) =? n)%Z
  | Some (YFloat q) => Qeq_bool q (inject_Z n)
  | _ => false
  end.

(** [f"{n}"] for an int. *)
Definition py_int_str (n : Z) : string :=
  if (n <? 0)%Z then "-" ++ z_to_decimal (- n) else z_to_decimal n.

(** [type(v).__name__]. *)
Definition ytype_name (v : yval) : string :=
  match v with
  | YNull => "NoneType"
  | YBool _ => "bool"
  | YInt _ => "int"
  | YFloat _ => "float"
  | YStr _ => "str"
  | YList _ => "list"
  | YMap _ => "dict"
  end.

(** The AttributeError of [v.attr] on a value without that method. *)
Definition no_attr (v : yval) (attr : string) : raised :=
  PyAttributeError ("'" ++ ytype_name v ++ "' object has no attribute '" ++ attr ++ "'").

(** [v.get(k, default)]: only a mapping has [.get]. *)
Definition py_get_default (k : string) (default : yval) (v : yval) : outcome yval :=
  match v with
  | YMap m => Ret (ymap_get_default k default m)
  | _ => Exn (no_attr v "get")
  end.

(** [v[k]] for a string key [k] (the messages of Python 3.11 and later). *)
Definition py_getitem (k : string) (v : yval) : outcome yval :=
  match v with
  | YMap m => match ymap_get k m with Some x => Ret x | None => Exn (KeyError k) end
  | YList _ => Exn (PyTypeError "list indices must be integers or slices, not str")
  | YStr _ => Exn (PyTypeError "string indices must be integers, not 'str'")
  | _ => Exn (PyTypeError ("'" ++ ytype_name v ++ "' object is not subscriptable"))
  end.

(** [len(v)]. *)
Definition py_len (v : yval) : outcome Z :=
  match v with
  | YList l => Ret (Z.of_nat (List.length l))
  | YStr s => Ret (Z.of_nat (String.length s))
  | YMap m => Ret (Z.of_nat (List.length m))
  | _ => Exn (PyTypeError ("object of type '" ++ ytype_name v ++ "' has no len()"))
  end.

(** [for x in v]: a list gives its items, a string its characters, a
    mapping its keys; other values are not iterable. *)
Definition py_iter (v : yval) : outcome (list yval) :=
  match v with
  | YList l => Ret l
  | YStr s => Ret (map (fun c => YStr (String c EmptyString)) (list_ascii_of_string s))
  | YMap m => Ret (map (fun kv => YStr (fst kv)) m)
  | _ => Exn (PyTypeError ("'" ++ ytype_name v ++ "' object is not iterable"))
  end.

(** The registry is what [yaml.safe_load] returns for [registry.yaml]:
    below, [None] when the file does not exist and [Some v] for the loaded
    document [v] ([YNull] for an empty file).  [create_playbook] writes it
    back with [yaml.dump], from which [yaml.safe_load] gives back the same
    value. *)

(** [[p for p in playbooks if p.get('is_active', True)]] over the items. *)
Fixpoint filter_active (items : list yval) : outcome (list yval) :=
  match items with
  | [] => Ret []
  | p :: ps =>
    let? a := py_get_default "is_active" (YBool true) p in
    let? rest := filter_active ps in
    Ret (if ytruthy a then p :: rest else rest)
  end.

(** [get_playbooks]: the value the handler returns (a list when
    [active_only], else the loaded [playbooks] value itself); the log line
    takes [len(playbooks)]. *)
Definition get_playbooks (reg : option yval) (active_only : bool) : outcome yval :=
  route_guard
    match reg with
    | None => Ret (YList [])
    | Some registry =>
      let? playbooks := py_get_default "playbooks" (YList []) registry in
      let? playbooks :=
        if active_only then
          let? items := py_iter playbooks in
          let? kept := filter_active items in
          Ret (YList kept)
        else Ret playbooks in
      let? _ := py_len playbooks in
      Ret playbooks
    end.

(** [next((p for p in playbooks if p.get('id') == playbook_id), None)] over
    the items: the first item whose id matches, stopping there. *)
Fixpoint find_playbook (playbook_id : Z) (items : list yval) : outcome (option yobj) :=
  match items with
  | [] => Ret None
  | YMap m :: ps =>
    if yeq_int (ymap_get "id" m) playbook_id then Ret (Some m)
    else find_playbook playbook_id ps
  | p :: _ => Exn (no_attr p "get")
  end.

(** The [try] block of [get_playbook]; the log line reads [playbook['name']]. *)
Definition get_playbook_body (reg : option yval) (playbook_id : Z) : outcome yobj :=
  match reg with
  | None => Exn (HTTPException 404 "Playbook registry not found")
  | Some registry =>
    let? playbooks := py_get_default "playbooks" (YList []) registry in
    let? items := py_iter playbooks in
    let? found := find_playbook playbook_id items in
    match found with
    | None => Exn (HTTPException 404 ("Playbook " ++ py_int_str playbook_id ++ " not found"))
    | Some [] => Exn (HTTPException 404 ("Playbook " ++ py_int_str playbook_id ++ " not found"))
    | Some p =>
      let? _ := py_getitem "name" (YMap p) in
      Ret p
    end
  end.

Definition get_playbook (reg : option yval) (playbook_id : Z) : outcome yobj :=
  route_guard (get_playbook_body reg playbook_id).

Fixpoint check_required (fields : list string) (data : yobj) : outcome unit :=
  match fields with
  | [] => Ret tt
  | f :: fs =>
    match ymap_get f data with
    | None => Exn (HTTPException 400 ("Missing required field: " ++ f))
    | Some _ => check_required fs data
    end
  end.

(** The request with its id and its two timestamps set, in that order. *)
Definition new_playbook (n : Z) (data : yobj) (created_at updated_at : string) : yobj :=
  ymap_set "updated_at" (YStr updated_at)
    (ymap_set "created_at" (YStr created_at)
       (ymap_set "id" (YInt (n + 1)) data)).

(** [create_playbook]: the registry written back and the returned playbook;
    [created_at] and [updated_at] are the two [datetime.now().isoformat()]
    strings.  [registry['playbooks'].append] extends the loaded list. *)
Definition create_playbook (reg : option yval) (playbook_data : yobj)
    (created_at updated_at : string) : outcome (yval * yobj) :=
  route_guard
    (let? _ := check_required ["name"; "trigger_conditions"; "actions"] playbook_data in
     let registry := match reg with None => YMap [("playbooks", YList [])] | Some r => r end in
     let? playbooks := py_getitem "playbooks" registry in
     let? n := py_len playbooks in
     let p := new_playbook n playbook_data created_at updated_at in
     match registry, playbooks with
     | YMap m, YList l => Ret (YMap (ymap_set "playbooks" (YList (app l [YMap p])) m), p)
     | _, _ => Exn (no_attr playbooks "append")
     end).

(** One row of [playbook_executions]. *)
Record exec_row := mk_exec_row {
  er_playbook_id : Z;
  er_status : string
}.

Section ExecuteRoute.

(** [str()] of a YAML value that is not a string (Python's repr rules). *)
Variable yval_str : yval -> string.

Definition action_str (v : yval) : string :=
  match v with YStr s => s | _ => yval_str v end.

(** The [/playbooks/{playbook_id}/execute] route, [ins] the outcome of the
    INSERT into [playbook_executions]: the execution record and the row it
    inserts.  The action body only builds a dictionary and an f-string, so
    it never raises: [source_action_body]. *)
Definition route_execute_playbook (ins : exec_row -> option raised) (reg : option yval)
    (playbook_id : Z) : outcome (execution * exec_row) :=
  route_guard
    (let? playbook := get_playbook reg playbook_id in
     let? actions := py_iter (ymap_get_default "actions" (YList []) playbook) in
     let ex := execute_playbook source_action_body (map action_str actions) in
     let row := mk_exec_row playbook_id (ex_status ex) in
     match ins row with
     | Some e => Exn e
     | None => Ret (ex, row)
     end).

End ExecuteRoute.

Record playbook_summary := mk_pb_summary {
  total_executions : Z;
  successful_executions : option Z;
  failed_executions : option Z;
  running_executions : option Z;
  unique_playbooks : Z;
  success_rate : Q
}.

Definition status_sum (st : string) (rows : list exec_row) : option Z :=
  match rows with
  | [] => None
  | _ => Some (Z.of_nat (List.length (filter (fun r => String.eqb (er_status r) st) rows)))
  end.

(** [get_playbook_summary] over the executions of the window. *)
Definition get_playbook_summary (rows : list exec_row) : outcome playbook_summary :=
  route_guard
    (let total := Z.of_nat (List.length rows) in
     let successful := status_sum "completed" rows in
     let rate :=
       if (0 <? total)%Z then
         match successful with
         | Some s => Ret (zdiv s total * 100)
         | None => Exn (PyTypeError "unsupported operand type(s) for /: 'NoneType' and 'int'")
         end
       else Ret 0 in
     let? rate := rate in
     Ret (mk_pb_summary total successful (status_sum "failed" rows) (status_sum "running" rows)
            (Z.of_nat (List.length (nodup Z.eq_dec (map er_playbook_id rows))))
            (round2 rate))).

(** The routes of the playbooks router in declaration order: method, path
    segments ([None] for a [{playbook_id}] parameter) and handler. *)
Definition playbook_routes : list (string * list (option string) * string) :=
  [("GET", [], "get_playbooks");
   ("POST", [], "create_playbook");
   ("GET", [None], "get_playbook");
   ("POST", [None; Some "execute"], "execute_playbook");
   ("GET", [None; Some "executions"], "get_playbook_executions");
   ("GET", [Some "templates"], "get_playbook_templates");
   ("GET", [Some "summary"], "get_playbook_summary")].

(** Starlette's match of a path against a route: a parameter takes any
    non-empty segment. *)
Fixpoint path_matches (pat : list (option string)) (path : list string) : bool :=
  match pat, path with
  | [], [] => true
  | None :: pat', s :: path' => negb (String.eqb s "") && path_matches pat' path'
  | Some lit :: pat', s :: path' => String.eqb lit s && path_matches pat' path'
  | _, _ => false
  end.

(** The first route whose method and path match handles the request. *)
Definition dispatch (method : string) (path : list string) : option string :=
  match find (fun r => String.eqb (fst (fst r)) method && path_matches (snd (fst r)) path)
             playbook_routes with
  | Some r => Some (snd r)
  | None => None
  end.

(** ** Sample inputs *)

(** A window of three records: one true positive and two false positives. *)
Definition three_rows : list outcome_row :=
  [mk_row true true (9 # 10); mk_row false true (7 # 10); mk_row false true (6 # 10)].

(** The number of alerts about metric [m]. *)
Definition count_alerts (m : string) (alerts : list alert) : nat :=
  List.length (filter (fun a => String.eqb (metric_name a) m) alerts).

Definition sample_kpis : list (string * Q) :=
  [("accuracy", 75 # 100); ("precision", 90 # 100); ("total_samples", 4)].

(** For the witnesses: [ks_2samp([0,0,0], [1,1,1])] has statistic 1 and exact
    p-value 2/20 = 0.1; [ks_2samp([0,0,0], [0,0,1])] has statistic 1/3 and
    p-value 1. *)
Definition ks_pvalue_example (b c : list Q) : Q :=
  if Qeq_bool (ks_statistic b c) 1 then 1 # 10 else 1.

(** Five hourly buckets: accuracies 1, 0, 0, 0, 0. *)
Definition five_buckets : list (Z * Z) :=
  [(1, 1); (1, 0); (1, 0); (1, 0); (1, 0)]%Z.

(** Three fraudulent transactions, one of them predicted. *)
Definition three_frauds : list join_row :=
  [mk_jrow 1 (Some 1%Z); mk_jrow 1 None; mk_jrow 1 (Some 0%Z)].

Example fmt3_ex : fmt3 (3 # 4) = "0.750" /\ fmt3 (-1 # 10000) = "-0.000"
  /\ fmt3 (12345 # 10) = "1234.500" /\ fmt3 (625 # 10000) = "0.062"
  /\ fmt3 (25 # 10000) = "0.003" /\ fmt3 (85 # 100) = "0.850"
  /\ fmt3 (inject_Z (2 ^ 1024)) = "inf".
Proof. vm_compute. repeat split. Qed.

(** ** Helper lemmas *)

Lemma Qltb_true (x y : Q) : Qltb x y = true <-> x < y.
Proof.
  unfold Qltb. rewrite negb_true_iff. split; intro H.
  - apply Qnot_le_lt. intro H'. apply Qle_bool_iff in H'. congruence.
  - destruct (Qle_bool y x) eqn:E; [|reflexivity].
    apply Qle_bool_iff in E. exfalso. apply (Qlt_not_le x y); assumption.
Qed.

Lemma Qltb_false (x y : Q) : Qltb x y = false <-> y <= x.
Proof.
  unfold Qltb. rewrite negb_false_iff. apply Qle_bool_iff.
Qed.

Lemma count_rows_cons (p : outcome_row -> bool) r rows :
  count_rows p (r :: rows) = ((if p r then 1 else 0) + count_rows p rows)%Z.
Proof.
  unfold count_rows. cbn [filter]. destruct (p r); cbn [List.length]; lia.
Qed.

Lemma length_confusion rows :
  Z.of_nat (List.length rows) = (TP rows + FP rows + TN rows + FN rows)%Z.
Proof.
  unfold TP, FP, TN, FN. induction rows as [|r rows IH]; [reflexivity|].
  rewrite !count_rows_cons. simpl List.length.
  destruct (actual r), (predicted r); cbn [andb negb Bool.eqb]; lia.
Qed.

Lemma correct_confusion rows :
  count_rows (fun r => Bool.eqb (actual r) (predicted r)) rows = (TP rows + TN rows)%Z.
Proof.
  unfold TP, TN. induction rows as [|r rows IH]; [reflexivity|].
  rewrite !count_rows_cons.
  destruct (actual r), (predicted r); cbn [andb negb Bool.eqb]; lia.
Qed.

(** ** Threshold classification *)

(** C1 (corrected).  The classifier is the total function
    critical if value < critical, else warning if value < min or value > max,
    else healthy, with severities high / medium / low; a value equal to [min]
    or [max] is healthy only when it is not below [critical] (and min <= max);
    the accuracy thresholds classify 0.75 as critical / high. *)
Theorem classify_rule :
  forall (value : Q) (th : thresholds),
    classify value th =
      (if Qltb value (t_critical th) then ("critical", "high")
       else if Qltb value (t_min th) || Qltb (t_max th) value then ("warning", "medium")
       else ("healthy", "low"))
    /\ (classify value th = ("critical", "high") \/
        classify value th = ("warning", "medium") \/
        classify value th = ("healthy", "low"))
    /\ ((value == t_min th \/ value == t_max th) -> t_critical th <= value ->
        t_min th <= t_max th -> classify value th = ("healthy", "low"))
    /\ classify (75 # 100) (mk_thresholds (85 # 100) 1 (80 # 100)) = ("critical", "high").
Proof.
  intros value th. unfold classify.
  split; [|split; [|split]].
  - destruct (Qltb value (t_critical th)); [reflexivity|].
    destruct (Qltb value (t_min th)); reflexivity.
  - destruct (Qltb value (t_critical th)); [left; reflexivity|].
    destruct (Qltb value (t_min th)); [right; left; reflexivity|].
    destruct (Qltb (t_max th) value); [right; left|right; right]; reflexivity.
  - intros Hb Hc Hm.
    assert (E1 : Qltb value (t_critical th) = false) by (apply Qltb_false; exact Hc).
    assert (E2 : Qltb value (t_min th) = false).
    { apply Qltb_false. destruct Hb as [Hb|Hb]; rewrite Hb; [apply Qle_refl|exact Hm]. }
    assert (E3 : Qltb (t_max th) value = false).
    { apply Qltb_false. destruct Hb as [Hb|Hb]; rewrite Hb; [exact Hm|apply Qle_refl]. }
    rewrite E1, E2, E3. reflexivity.
  - vm_compute. reflexivity.
Qed.

Lemma classify_rule_witness :
  t_critical (mk_thresholds (85 # 100) 1 (80 # 100)) <= 85 # 100 /\
  classify (85 # 100) (mk_thresholds (85 # 100) 1 (80 # 100)) = ("healthy", "low").
Proof.
  split; [vm_compute; discriminate|].
  apply (classify_rule (85 # 100) (mk_thresholds (85 # 100) 1 (80 # 100))).
  - left. reflexivity.
  - vm_compute. discriminate.
  - vm_compute. discriminate.
Defined.

(** C1 counterexample: with the repository's own [false_positive_rate] row
    (min 0, max 0.1, critical 0.15) a value equal to [min] (0) and a value
    equal to [max] (0.1) are both classified critical, not healthy. *)
Lemma classify_boundary_not_healthy :
  table_get "false_positive_rate" alert_thresholds = Some (mk_thresholds 0 (1 # 10) (15 # 100))
  /\ classify 0 (mk_thresholds 0 (1 # 10) (15 # 100)) = ("critical", "high")
  /\ classify (1 # 10) (mk_thresholds 0 (1 # 10) (15 # 100)) = ("critical", "high").
Proof. vm_compute. repeat split. Qed.

(** ** Metric evaluator *)

Lemma calculate_kpis_cons r rows :
  let rs := r :: rows in
  let tp := TP rs in let fp := FP rs in let tn := TN rs in let fn := FN rs in
  let precision := if (0 <? tp + fp)%Z then zdiv tp (tp + fp) else 0 in
  let recall := if (0 <? tp + fn)%Z then zdiv tp (tp + fn) else 0 in
  calculate_kpis rs =
  PyOk [("accuracy", VFloat (round4 (zdiv (tp + tn) (tp + fp + tn + fn))));
        ("precision", VFloat (round4 precision));
        ("recall", VFloat (round4 recall));
        ("f1_score", VFloat (round4 (if Qltb 0 (precision + recall)
                                     then 2 * (precision * recall) / (precision + recall)
                                     else 0)));
        ("auc_score", VFloat (round4 (85 # 100)));
        ("false_positive_rate",
           VFloat (round4 (if (0 <? fp + tn)%Z then zdiv fp (fp + tn) else 0)));
        ("false_negative_rate",
           VFloat (round4 (if (0 <? fn + tp)%Z then zdiv fn (fn + tp) else 0)));
        ("total_samples", VInt (tp + fp + tn + fn))].
Proof.
  cbv zeta. cbv beta iota zeta delta [calculate_kpis].
  replace (0 <? Z.of_nat (List.length (r :: rows)))%Z with true
    by (symmetry; apply Z.ltb_lt; cbn [List.length]; lia).
  rewrite length_confusion, correct_confusion.
  reflexivity.
Qed.




(** C6 (corrected).  On a window with zero records the evaluator raises
    nothing and returns the empty dictionary ({}), which no non-empty window
    produces; it never raises. *)
Theorem calculate_kpis_empty_window :
  forall rows : list outcome_row,
    (calculate_kpis rows = PyOk [] <-> rows = []) /\ is_raise (calculate_kpis rows) = false.
Proof.
  intros [|r rows].
  - split; [split; reflexivity | reflexivity].
  - rewrite calculate_kpis_cons. split; [split; discriminate | reflexivity].
Qed.

(** C6 counterexample: the empty window yields an ordinary (empty) result,
    not an [InsufficientDataError]. *)
Lemma calculate_kpis_empty_no_error :
  calculate_kpis [] = PyOk [] /\ is_raise (calculate_kpis []) = false.
Proof. split; reflexivity. Qed.

(** C10 (confirmed).  For every non-empty window the [auc_score] entry is
    round(0.85, 4) = 0.85, whatever the probabilities and labels. *)
Theorem calculate_kpis_auc_constant :
  forall rows : list outcome_row, rows <> [] ->
    get_float "auc_score" (calculate_kpis rows) = Some (round4 (85 # 100))
    /\ round4 (85 # 100) == 85 # 100.
Proof.
  intros [|r rows] Hne; [contradiction|].
  rewrite calculate_kpis_cons. split; reflexivity.
Qed.

Lemma calculate_kpis_auc_constant_witness :
  get_float "auc_score" (calculate_kpis three_rows) = Some (round4 (85 # 100))
  /\ round4 (85 # 100) == 85 # 100.
Proof. apply (calculate_kpis_auc_constant three_rows). discriminate. Defined.

(** ** Alert generation *)

Lemma all_digits_app (s1 s2 : string) :
  all_digits (s1 ++ s2) = all_digits s1 && all_digits s2.
Proof.
  induction s1 as [|c s1 IH]; [reflexivity|].
  simpl. rewrite IH. apply andb_assoc.
Qed.

Lemma all_digits_digit_char (d : Z) (s : string) :
  (0 <= d <= 9)%Z -> all_digits (String (digit_char d) s) = all_digits s.
Proof.
  intros Hd. unfold digit_char. cbn [all_digits].
  rewrite nat_ascii_embedding by lia.
  replace (Nat.leb 48 (48 + Z.to_nat d)) with true by (symmetry; apply Nat.leb_le; lia).
  replace (Nat.leb (48 + Z.to_nat d) 57) with true by (symmetry; apply Nat.leb_le; lia).
  reflexivity.
Qed.

Lemma z_digits_all_digits fuel : forall n acc,
  all_digits acc = true -> all_digits (z_digits fuel n acc) = true.
Proof.
  induction fuel as [|f IH]; intros n acc Hacc; [exact Hacc|].
  cbn [z_digits].
  assert (Hs : all_digits (String (digit_char (n mod 10)) acc) = true).
  { rewrite all_digits_digit_char by (pose proof (Z.mod_pos_bound n 10); lia). exact Hacc. }
  destruct (n <? 10)%Z; [exact Hs | apply IH; exact Hs].
Qed.

(** The [:.3f] rendering of a finite float is a sign, integer digits, a
    point and exactly three fractional digits. *)
Lemma fmt3_shape (q d : Q) :
  double_of (Qabs q) = Some d ->
  exists sgn ip fp, fmt3 q = sgn ++ ip ++ "." ++ fp /\
    (sgn = "" \/ sgn = "-") /\ all_digits ip = true /\
    String.length fp = 3%nat /\ all_digits fp = true.
Proof.
  intros Hd. unfold fmt3. rewrite Hd.
  set (n := round_half_even (d * 1000)).
  set (r := (n mod 1000)%Z).
  assert (Hr : (0 <= r < 1000)%Z) by (apply Z.mod_pos_bound; lia).
  exists (if Qltb q 0 then "-" else ""), (z_to_decimal (n / 1000)), (three_digits r).
  split; [reflexivity|]. split; [destruct (Qltb q 0); auto|].
  split; [apply z_digits_all_digits; reflexivity|].
  split; [reflexivity|].
  unfold three_digits.
  assert (H100 : (0 <= r / 100 < 10)%Z)
    by (split; [apply Z.div_pos | apply Z.div_lt_upper_bound]; lia).
  rewrite all_digits_digit_char by lia.
  rewrite all_digits_digit_char by (pose proof (Z.mod_pos_bound (r / 10) 10); lia).
  rewrite all_digits_digit_char by (pose proof (Z.mod_pos_bound r 10); lia).
  reflexivity.
Qed.

Lemma check_kpi_thresholds_in table kpis a :
  In a (check_kpi_thresholds table kpis) ->
  exists th, table_get (metric_name a) table = Some th /\
    In (metric_name a, current_value a) kpis /\
    status a = fst (classify (current_value a) th) /\
    severity a = snd (classify (current_value a) th) /\
    status a <> "healthy" /\
    message a = metric_name a ++ " is " ++ status a ++ ": " ++ fmt3 (current_value a) ++
                " (threshold: " ++ fmt3 (t_min th) ++ "-" ++ fmt3 (t_max th) ++ ")".
Proof.
  induction kpis as [|[m v] rest IH]; simpl; [contradiction|].
  destruct (table_get m table) as [th|] eqn:Ht.
  2:{ intros Hin. destruct (IH Hin) as (th' & H1 & H2 & H3). exists th'. auto. }
  destruct (classify v th) as [st sev] eqn:Hc.
  destruct (String.eqb st "healthy") eqn:Hh; simpl.
  - intros Hin. destruct (IH Hin) as (th' & H1 & H2 & H3). exists th'. auto.
  - intros [<-|Hin].
    + exists th. simpl. rewrite Hc. repeat split; auto.
      intro E. subst st. discriminate.
    + destruct (IH Hin) as (th' & H1 & H2 & H3). exists th'. auto.
Qed.

Lemma count_alerts_cons table m v rest m0 :
  count_alerts m0 (check_kpi_thresholds table ((m, v) :: rest)) =
  ((match table_get m table with
    | Some th => if String.eqb (fst (classify v th)) "healthy" then 0
                 else if String.eqb m m0 then 1 else 0
    | None => 0
    end) + count_alerts m0 (check_kpi_thresholds table rest))%nat.
Proof.
  unfold count_alerts. simpl.
  destruct (table_get m table) as [th|]; [|reflexivity].
  destruct (classify v th) as [st sev]. simpl.
  destruct (String.eqb st "healthy"); simpl; [reflexivity|].
  destruct (String.eqb m m0); reflexivity.
Qed.

Lemma count_alerts_absent table kpis m :
  ~ In m (map fst kpis) -> count_alerts m (check_kpi_thresholds table kpis) = 0%nat.
Proof.
  induction kpis as [|[m' v'] rest IH]; intros Hm; [reflexivity|].
  rewrite count_alerts_cons. simpl in Hm.
  rewrite IH by tauto.
  assert (E : String.eqb m' m = false) by (apply String.eqb_neq; intro; apply Hm; left; assumption).
  rewrite E. destruct (table_get m' table); [|reflexivity].
  destruct (String.eqb _ "healthy"); reflexivity.
Qed.

(** C9 (confirmed).  For a [kpis] dictionary (distinct keys), each metric
    with thresholds whose classified status is not healthy gives exactly one
    alert, a healthy or unknown metric gives none; every alert carries the
    classified status and severity of its metric and the message
    "<metric> is <status>: <value> (threshold: <min>-<max>)", each number
    rendered by [:.3f] from the float the program holds; a finite float
    renders as sign, digits, point and exactly three digits. *)
Theorem check_kpi_thresholds_alerts :
  forall (table : list (string * thresholds)) (kpis : list (string * Q)),
    NoDup (map fst kpis) ->
    (forall m v, In (m, v) kpis ->
       count_alerts m (check_kpi_thresholds table kpis) =
       match table_get m table with
       | Some th => if String.eqb (fst (classify v th)) "healthy" then 0%nat else 1%nat
       | None => 0%nat
       end)
    /\ (forall a, In a (check_kpi_thresholds table kpis) ->
         exists th, table_get (metric_name a) table = Some th /\
           In (metric_name a, current_value a) kpis /\
           status a = fst (classify (current_value a) th) /\
           severity a = snd (classify (current_value a) th) /\
           status a <> "healthy" /\
           message a = metric_name a ++ " is " ++ status a ++ ": " ++ fmt3 (current_value a) ++
                       " (threshold: " ++ fmt3 (t_min th) ++ "-" ++ fmt3 (t_max th) ++ ")")
    /\ (forall q d, double_of (Qabs q) = Some d ->
         exists sgn ip fp, fmt3 q = sgn ++ ip ++ "." ++ fp /\
         (sgn = "" \/ sgn = "-") /\ all_digits ip = true /\
         String.length fp = 3%nat /\ all_digits fp = true).
Proof.
  intros table kpis Hnd. split; [|split; [apply check_kpi_thresholds_in | apply fmt3_shape]].
  induction kpis as [|[m' v'] rest IH]; intros m v Hin; [contradiction|].
  inversion Hnd as [|? ? Hnotin Hnd']; subst.
  rewrite count_alerts_cons. destruct Hin as [E|Hin].
  - injection E as <- <-. rewrite count_alerts_absent by exact Hnotin.
    rewrite String.eqb_refl.
    destruct (table_get m' table); [|reflexivity].
    destruct (String.eqb _ "healthy"); reflexivity.
  - assert (Hm : In m (map fst rest)) by (apply (in_map fst) in Hin; exact Hin).
    assert (E : String.eqb m' m = false)
      by (apply String.eqb_neq; intros <-; contradiction).
    rewrite E, (IH Hnd' m v Hin).
    destruct (table_get m' table); [|reflexivity].
    destruct (String.eqb _ "healthy"); reflexivity.
Qed.

Lemma check_kpi_thresholds_alerts_witness :
  count_alerts "accuracy" (check_kpi_thresholds alert_thresholds sample_kpis) = 1%nat
  /\ map message (check_kpi_thresholds alert_thresholds sample_kpis) =
     ["accuracy is critical: 0.750 (threshold: 0.850-1.000)"]
  /\ map message (check_kpi_thresholds alert_thresholds [("recall", 25 # 10000)]) =
     ["recall is critical: 0.003 (threshold: 0.750-1.000)"].
Proof.
  split; [|split; [vm_compute; reflexivity|]].
  - refine (eq_trans (proj1 (check_kpi_thresholds_alerts alert_thresholds sample_kpis _)
                        "accuracy" (75 # 100) _) _).
    + repeat constructor; simpl; intuition discriminate.
    + left. reflexivity.
    + vm_compute. reflexivity.
  - vm_compute. reflexivity.
Defined.

(** ** Statistical drift *)

Lemma zdiv_unit (a b : Z) : (0 <= a <= b)%Z -> 0 <= zdiv a b <= 1.
Proof.
  intros Hab. unfold zdiv. destruct (Z.eq_dec b 0) as [->|Hb].
  - replace a with 0%Z by lia. vm_compute. split; discriminate.
  - assert (Hpos : 0 < inject_Z b) by (unfold Qlt; simpl; lia).
    split.
    + apply (Qle_shift_div_l 0 (inject_Z a) (inject_Z b) Hpos). unfold Qle; simpl; lia.
    + apply (Qle_shift_div_r (inject_Z a) (inject_Z b) 1 Hpos). rewrite Qmult_1_l. unfold Qle; simpl; lia.
Qed.








(** C7 (confirmed).  When the baseline or the current sample is empty the
    detector raises nothing and returns drift_score 0.0, drift_detected
    false and drift_type "insufficient_data" (with p_value 1.0). *)
Theorem detect_statistical_drift_empty :
  forall (drift_threshold : Q) (ks_pvalue : list Q -> list Q -> Q)
         (baseline current : list Q) (feature_name : string),
    baseline = [] \/ current = [] ->
    detect_statistical_drift drift_threshold ks_pvalue baseline current feature_name =
      PyOk [("drift_score", VFloat 0); ("p_value", VFloat 1);
            ("drift_detected", VBool false); ("drift_type", VStr "insufficient_data")]
    /\ is_raise (detect_statistical_drift drift_threshold ks_pvalue baseline current
                   feature_name) = false.
Proof.
  intros thr pv b c f [->| ->]; [split; reflexivity|].
  destruct b; split; reflexivity.
Qed.

Lemma detect_statistical_drift_empty_witness :
  detect_statistical_drift (1 # 10) ks_pvalue_example [5; 7] [] "amount" =
    PyOk [("drift_score", VFloat 0); ("p_value", VFloat 1);
          ("drift_detected", VBool false); ("drift_type", VStr "insufficient_data")]
  /\ is_raise (detect_statistical_drift (1 # 10) ks_pvalue_example [5; 7] [] "amount") = false.
Proof.
  apply (detect_statistical_drift_empty (1 # 10) ks_pvalue_example [5; 7] [] "amount").
  right. reflexivity.
Defined.

(** ** Concept drift *)





(** ** Coverage *)






(** ** Playbook execution *)

Lemma run_actions_spec (body : string -> option string) (actions : list string) :
  map ar_action (fst (run_actions body actions)) = actions
  /\ map ar_status (fst (run_actions body actions)) =
     map (fun a => match body a with None => "success" | Some _ => "failed" end) actions
  /\ List.length (snd (run_actions body actions)) = List.length actions.
Proof.
  induction actions as [|a rest IH]; [repeat split|].
  simpl. destruct (run_actions body rest) as [results log]. simpl in IH.
  destruct IH as (H1 & H2 & H3).
  destruct (body a); simpl; rewrite ?H1, ?H2, ?H3; repeat split.
Qed.

Lemma run_actions_entries (body : string -> option string) (actions : list string) :
  run_actions body actions = (map (action_entry body) actions, map (action_log_line body) actions).
Proof.
  induction actions as [|a rest IH]; [reflexivity|].
  cbn [run_actions map]. rewrite IH. unfold action_entry, action_log_line.
  destruct (body a); reflexivity.
Qed.

(** C8 (code bug).  Every action of the ordered list is attempted, also
    after one whose body raised: the i-th result entry and the i-th log line
    are those of the i-th action, "success" (log "✅ a: Success") when its
    body completed and "failed" with the error (log "❌ a: Failed - e") when
    it raised.  The execution's final status is always "completed", whatever
    the actions' outcomes. *)
Theorem execute_playbook_best_effort :
  forall (action_body : string -> option string) (actions : list string),
    let ex := execute_playbook action_body actions in
    ex_actions_executed ex = map (action_entry action_body) actions
    /\ ex_execution_log ex = map (action_log_line action_body) actions
    /\ map ar_action (ex_actions_executed ex) = actions
    /\ map ar_status (ex_actions_executed ex) =
       map (fun a => match action_body a with None => "success" | Some _ => "failed" end)
           actions
    /\ ex_status ex = "completed".
Proof.
  intros body actions. cbv zeta. unfold execute_playbook.
  pose proof (run_actions_spec body actions) as (H1 & H2 & _).
  rewrite run_actions_entries in *. cbn [fst snd ex_actions_executed ex_execution_log ex_status] in *.
  repeat split; assumption.
Qed.

(** C8 divergence: with the repository's action body every action of
    [notify; retrain] reports "success", yet the execution ends in
    "completed", not "success"; with an always-raising body every action
    fails and the execution still ends in "completed", not "failed". *)
Lemma execute_playbook_status_completed :
  map ar_status (ex_actions_executed (execute_playbook source_action_body ["notify"; "retrain"]))
    = ["success"; "success"]
  /\ ex_status (execute_playbook source_action_body ["notify"; "retrain"]) = "completed"
  /\ map ar_status (ex_actions_executed (execute_playbook (fun _ => Some "timeout") ["notify"]))
    = ["failed"]
  /\ ex_status (execute_playbook (fun _ => Some "timeout") ["notify"]) = "completed"
  /\ String.eqb "completed" "success" = false
  /\ String.eqb "completed" "failed" = false.
Proof. repeat split. Qed.

(** ** Rounding and the range of the KPIs *)

Lemma round_half_even_between (x : Q) :
  round_half_even x = Qfloor x \/
  (round_half_even x = (Qfloor x + 1)%Z /\ inject_Z (Qfloor x) < x).
Proof.
  unfold round_half_even.
  destruct (Qltb (x - inject_Z (Qfloor x)) (1 # 2)) eqn:E1; [left; reflexivity|].
  apply Qltb_false in E1.
  assert (Hlt : inject_Z (Qfloor x) < x) by lra.
  destruct (Qltb (1 # 2) (x - inject_Z (Qfloor x))); [right; split; auto|].
  destruct (Z.even (Qfloor x)); [left; reflexivity|right; split; auto].
Qed.

Lemma round_places_unit (p : positive) (x : Q) :
  0 <= x <= 1 -> 0 <= round_places p x <= 1.
Proof.
  intros [H0 H1]. unfold round_places.
  set (y := x * inject_Z (Z.pos p)).
  assert (Hp : 0 < inject_Z (Z.pos p)) by (unfold Qlt; simpl; lia).
  assert (Hy0 : 0 <= y) by (apply Qmult_le_0_compat; lra).
  assert (Hy1 : y <= inject_Z (Z.pos p)).
  { unfold y. rewrite <- (Qmult_1_l (inject_Z (Z.pos p))) at 2.
    apply Qmult_le_compat_r; lra. }
  assert (Hf0 : (0 <= Qfloor y)%Z).
  { pose proof (Qfloor_resp_le 0 y Hy0) as H. simpl in H. exact H. }
  assert (Hf1 : (Qfloor y <= Z.pos p)%Z).
  { pose proof (Qfloor_resp_le y _ Hy1) as H. rewrite Qfloor_Z in H. exact H. }
  destruct (round_half_even_between y) as [E|[E Hlt]]; rewrite E.
  - clearbody y. split; unfold Qle; simpl; lia.
  - assert (Hl : (Qfloor y < Z.pos p)%Z).
    { rewrite Zlt_Qlt. apply (Qlt_le_trans _ y); assumption. }
    clearbody y. split; unfold Qle; simpl; lia.
Qed.

Lemma guarded_zdiv_unit (a b : Z) :
  (0 <= a <= b)%Z -> 0 <= (if (0 <? b)%Z then zdiv a b else 0) <= 1.
Proof.
  intros H. destruct (0 <? b)%Z; [apply zdiv_unit; exact H|split; discriminate].
Qed.

Lemma f1_unit (p r : Q) :
  0 <= p <= 1 -> 0 <= r <= 1 ->
  0 <= (if Qltb 0 (p + r) then 2 * (p * r) / (p + r) else 0) <= 1.
Proof.
  intros Hp Hr. destruct (Qltb 0 (p + r)) eqn:E; [|split; discriminate].
  apply Qltb_true in E. split.
  - apply Qle_shift_div_l; [exact E|]. nra.
  - apply Qle_shift_div_r; [exact E|]. nra.
Qed.

Lemma count_rows_nonneg p rows : (0 <= count_rows p rows)%Z.
Proof. unfold count_rows. lia. Qed.

Ltac confusion_nonneg rows :=
  pose proof (count_rows_nonneg (fun r => actual r && predicted r) rows);
  pose proof (count_rows_nonneg (fun r => negb (actual r) && predicted r) rows);
  pose proof (count_rows_nonneg (fun r => negb (actual r) && negb (predicted r)) rows);
  pose proof (count_rows_nonneg (fun r => actual r && negb (predicted r)) rows);
  unfold TP, FP, TN, FN in *.

(** X1.  Every float the evaluator returns (accuracy, precision, recall,
    f1_score, auc_score and the two error rates) lies in [0, 1], also after
    the rounding to 4 places. *)
Theorem calculate_kpis_unit_interval :
  forall (rows : list outcome_row) (d : pydict) (k : string) (q : Q),
    calculate_kpis rows = PyOk d -> In (k, VFloat q) d -> 0 <= q <= 1.
Proof.
  intros rows d k q Hd Hin. destruct rows as [|r rows'].
  { injection Hd as <-. contradiction. }
  rewrite calculate_kpis_cons in Hd. injection Hd as <-.
  set (rs := r :: rows') in *. confusion_nonneg rs.
  assert (Hp : 0 <= (if (0 <? TP rs + FP rs)%Z then zdiv (TP rs) (TP rs + FP rs) else 0) <= 1)
    by (apply guarded_zdiv_unit; unfold TP, FP; lia).
  assert (Hr : 0 <= (if (0 <? TP rs + FN rs)%Z then zdiv (TP rs) (TP rs + FN rs) else 0) <= 1)
    by (apply guarded_zdiv_unit; unfold TP, FN; lia).
  unfold TP, FP, TN, FN in *.
  simpl in Hin.
  repeat (destruct Hin as [E|Hin]; [injection E as _ <-; apply round_places_unit|]);
    try contradiction.
  - apply zdiv_unit. lia.
  - exact Hp.
  - exact Hr.
  - apply f1_unit; assumption.
  - split; discriminate.
  - apply guarded_zdiv_unit. lia.
  - apply guarded_zdiv_unit. lia.
  - destruct Hin as [E|[]]. discriminate.
Qed.

Lemma calculate_kpis_unit_interval_witness :
  0 <= 5000 # 10000 <= 1.
Proof.
  apply (calculate_kpis_unit_interval four_rows
           (match calculate_kpis four_rows with PyOk d => d | PyRaise _ => [] end)
           "accuracy" (5000 # 10000)).
  - vm_compute. reflexivity.
  - vm_compute. left. reflexivity.
Defined.

(** ** The alerts of a monitored window *)

(** Whether the entry [(m, v)] yields an alert. *)
Definition alert_ind (table : list (string * thresholds)) (m : string) (v : Q) : nat :=
  match table_get m table with
  | Some th => if String.eqb (fst (classify v th)) "healthy" then 0 else 1
  | None => 0
  end.

Lemma check_kpi_thresholds_length_cons table m v rest :
  List.length (check_kpi_thresholds table ((m, v) :: rest)) =
  (alert_ind table m v + List.length (check_kpi_thresholds table rest))%nat.
Proof.
  unfold alert_ind. simpl. destruct (table_get m table) as [th|]; [|reflexivity].
  destruct (classify v th) as [st sev]. simpl.
  destruct (String.eqb st "healthy"); reflexivity.
Qed.

Lemma count_alerts_single table kpis :
  NoDup (map fst kpis) -> forall m v, In (m, v) kpis ->
  count_alerts m (check_kpi_thresholds table kpis) = alert_ind table m v.
Proof.
  unfold alert_ind. induction kpis as [|[m' v'] rest IH]; intros Hnd m v Hin; [contradiction|].
  inversion Hnd as [|? ? Hnotin Hnd']; subst.
  rewrite count_alerts_cons. destruct Hin as [E|Hin].
  - injection E as <- <-. rewrite count_alerts_absent by exact Hnotin.
    rewrite String.eqb_refl.
    destruct (table_get m' table); [|reflexivity].
    destruct (String.eqb _ "healthy"); reflexivity.
  - assert (Hm : In m (map fst rest)) by (apply (in_map fst) in Hin; exact Hin).
    assert (E : String.eqb m' m = false)
      by (apply String.eqb_neq; intros <-; contradiction).
    rewrite E, (IH Hnd' m v Hin).
    destruct (table_get m' table); [|reflexivity].
    destruct (String.eqb _ "healthy"); reflexivity.
Qed.

Lemma alert_ind_le table m v : (alert_ind table m v <= 1)%nat.
Proof.
  unfold alert_ind. destruct (table_get m table); [|lia].
  destruct (String.eqb _ "healthy"); lia.
Qed.

(** The default [false_positive_rate] and [false_negative_rate] rows never
    classify a value healthy: below [critical] it is critical, otherwise it
    is above [max]. *)
Lemma error_rate_never_healthy (v : Q) :
  alert_ind alert_thresholds "false_positive_rate" v = 1%nat /\
  alert_ind alert_thresholds "false_negative_rate" v = 1%nat.
Proof.
  unfold alert_ind, classify. simpl table_get. cbn [t_min t_max t_critical].
  split.
  - destruct (Qltb v (15 # 100)) eqn:E1; [reflexivity|].
    apply Qltb_false in E1.
    replace (Qltb (1 # 10) v) with true by (symmetry; apply Qltb_true; lra).
    destruct (Qltb v 0); reflexivity.
  - destruct (Qltb v (25 # 100)) eqn:E1; [reflexivity|].
    apply Qltb_false in E1.
    replace (Qltb (2 # 10) v) with true by (symmetry; apply Qltb_true; lra).
    destruct (Qltb v 0); reflexivity.
Qed.

Lemma send_alert_all (alerts : list alert) :
  List.length (filter (fun b => b) (map send_alert alerts)) = List.length alerts.
Proof. induction alerts as [|a rest IH]; simpl; [reflexivity|]. rewrite IH. reflexivity. Qed.

(** The [kpis] dictionary of a non-empty window, as handed to the threshold
    check. *)
Lemma kpi_values_cons r rows :
  exists acc pr rc f1 fpr fnr,
    (exists d, calculate_kpis (r :: rows) = PyOk d /\
      kpi_values d =
      [("accuracy", acc); ("precision", pr); ("recall", rc); ("f1_score", f1);
       ("auc_score", round4 (85 # 100)); ("false_positive_rate", fpr);
       ("false_negative_rate", fnr);
       ("total_samples", inject_Z (Z.of_nat (List.length (r :: rows))))]).
Proof.
  rewrite calculate_kpis_cons, length_confusion.
  do 6 eexists. eexists. split; [reflexivity|]. reflexivity.
Qed.

Lemma kpi_keys_nodup (l : list (string * Q)) :
  map fst l = ["accuracy"; "precision"; "recall"; "f1_score"; "auc_score";
               "false_positive_rate"; "false_negative_rate"; "total_samples"] ->
  NoDup (map fst l).
Proof. intros ->. repeat constructor; simpl; intuition discriminate. Qed.

Lemma auc_total_no_alert (n : Q) :
  alert_ind alert_thresholds "auc_score" (round4 (85 # 100)) = 0%nat /\
  alert_ind alert_thresholds "total_samples" n = 0%nat.
Proof. split; vm_compute; reflexivity. Qed.

Lemma window_alerts_length (rows : list outcome_row) (d : pydict) :
  rows <> [] -> calculate_kpis rows = PyOk d ->
  (2 <= List.length (check_kpi_thresholds alert_thresholds (kpi_values d)) <= 6)%nat.
Proof.
  intros Hne Hd. destruct rows as [|r rows']; [contradiction|].
  destruct (kpi_values_cons r rows') as (acc & pr & rc & f1 & fpr & fnr & d' & Hd' & Hk).
  rewrite Hd in Hd'. injection Hd' as <-. rewrite Hk.
  pose proof (error_rate_never_healthy fpr) as [Hfp _].
  pose proof (error_rate_never_healthy fnr) as [_ Hfn].
  pose proof (auc_total_no_alert (inject_Z (Z.of_nat (List.length (r :: rows')))))
    as [Hauc Hts].
  rewrite !check_kpi_thresholds_length_cons.
  rewrite Hfp, Hfn, Hauc, Hts. cbn [check_kpi_thresholds List.length].
  pose proof (alert_ind_le alert_thresholds "accuracy" acc).
  pose proof (alert_ind_le alert_thresholds "precision" pr).
  pose proof (alert_ind_le alert_thresholds "recall" rc).
  pose proof (alert_ind_le alert_thresholds "f1_score" f1).
  lia.
Qed.

(** X2.  For every non-empty window, checking its KPIs against the default
    thresholds gives exactly one false_positive_rate alert and exactly one
    false_negative_rate alert (critical when the rate is below 0.15, resp.
    0.25, and warning otherwise), no auc_score and no total_samples alert,
    hence between 2 and 6 alerts in all. *)
Theorem window_alerts_default_thresholds :
  forall (rows : list outcome_row) (d : pydict),
    rows <> [] -> calculate_kpis rows = PyOk d ->
    let alerts := check_kpi_thresholds alert_thresholds (kpi_values d) in
    count_alerts "false_positive_rate" alerts = 1%nat
    /\ count_alerts "false_negative_rate" alerts = 1%nat
    /\ count_alerts "auc_score" alerts = 0%nat
    /\ count_alerts "total_samples" alerts = 0%nat
    /\ (forall a, In a alerts -> metric_name a = "false_positive_rate" ->
         status a = if Qltb (current_value a) (15 # 100) then "critical" else "warning")
    /\ (forall a, In a alerts -> metric_name a = "false_negative_rate" ->
         status a = if Qltb (current_value a) (25 # 100) then "critical" else "warning")
    /\ (2 <= List.length alerts <= 6)%nat.
Proof.
  intros rows d Hne Hd. destruct rows as [|r rows']; [contradiction|].
  destruct (kpi_values_cons r rows') as (acc & pr & rc & f1 & fpr & fnr & d' & Hd' & Hk).
  rewrite Hd in Hd'. injection Hd' as <-. cbv zeta. rewrite Hk.
  set (l := [("accuracy", acc); ("precision", pr); ("recall", rc); ("f1_score", f1);
       ("auc_score", round4 (85 # 100)); ("false_positive_rate", fpr);
       ("false_negative_rate", fnr);
       ("total_samples", inject_Z (Z.of_nat (List.length (r :: rows'))))]).
  assert (Hnd : NoDup (map fst l)) by (apply kpi_keys_nodup; reflexivity).
  pose proof (error_rate_never_healthy fpr) as [Hfp _].
  pose proof (error_rate_never_healthy fnr) as [_ Hfn].
  pose proof (auc_total_no_alert (inject_Z (Z.of_nat (List.length (r :: rows')))))
    as [Hauc Hts].
  split; [|split; [|split; [|split; [|split; [|split]]]]].
  - rewrite (count_alerts_single _ _ Hnd "false_positive_rate" fpr); [exact Hfp|].
    unfold l; simpl; tauto.
  - rewrite (count_alerts_single _ _ Hnd "false_negative_rate" fnr); [exact Hfn|].
    unfold l; simpl; tauto.
  - rewrite (count_alerts_single _ _ Hnd "auc_score" (round4 (85 # 100))); [exact Hauc|].
    unfold l; simpl; tauto.
  - rewrite (count_alerts_single _ _ Hnd "total_samples"
               (inject_Z (Z.of_nat (List.length (r :: rows'))))); [exact Hts|].
    unfold l; simpl; tauto.
  - intros a Ha Hm. destruct (check_kpi_thresholds_in _ _ _ Ha) as (th & Ht & _ & Hs & _).
    rewrite Hm in Ht. simpl in Ht. injection Ht as <-. rewrite Hs.
    unfold classify. cbn [t_min t_max t_critical].
    destruct (Qltb (current_value a) (15 # 100)) eqn:E1; [reflexivity|].
    apply Qltb_false in E1.
    replace (Qltb (1 # 10) (current_value a)) with true by (symmetry; apply Qltb_true; lra).
    destruct (Qltb (current_value a) 0); reflexivity.
  - intros a Ha Hm. destruct (check_kpi_thresholds_in _ _ _ Ha) as (th & Ht & _ & Hs & _).
    rewrite Hm in Ht. simpl in Ht. injection Ht as <-. rewrite Hs.
    unfold classify. cbn [t_min t_max t_critical].
    destruct (Qltb (current_value a) (25 # 100)) eqn:E1; [reflexivity|].
    apply Qltb_false in E1.
    replace (Qltb (2 # 10) (current_value a)) with true by (symmetry; apply Qltb_true; lra).
    destruct (Qltb (current_value a) 0); reflexivity.
  - unfold l. rewrite <- Hk. apply (window_alerts_length (r :: rows')); assumption.
Qed.

Lemma window_alerts_default_thresholds_witness :
  count_alerts "false_positive_rate"
    (check_kpi_thresholds alert_thresholds
       (kpi_values (match calculate_kpis four_rows with PyOk d => d | PyRaise _ => [] end)))
  = 1%nat.
Proof.
  apply (window_alerts_default_thresholds four_rows
           (match calculate_kpis four_rows with PyOk d => d | PyRaise _ => [] end)).
  - discriminate.
  - vm_compute. reflexivity.
Defined.

Lemma insert_rows_ok {R} (ins : R -> option raised) (rows : list R) :
  (forall row, ins row = None) -> insert_rows ins rows = Ret tt.
Proof.
  intros H. induction rows as [|r rs IH]; [reflexivity|].
  cbn [insert_rows]. rewrite H. exact IH.
Qed.

Lemma insert_rows_fail {R} (ins : R -> option raised) (e : raised) (rows : list R) :
  (forall row, ins row = Some e) -> rows <> [] -> insert_rows ins rows = Exn e.
Proof.
  intros H Hne. destruct rows as [|r rs]; [contradiction|].
  cbn [insert_rows]. rewrite H. reflexivity.
Qed.

(** X3.  [monitor_kpis] on an empty window returns the error
    "No KPI data available", whatever the database does.  On any other
    window: when the database rejects every INSERT into [kpis] with [e] (as
    the repository's schema does), it returns [str(e)] as the error; when it
    accepts every INSERT, it returns a summary with kpis_calculated = 8,
    between 2 and 6 alerts generated, every generated alert sent, and the
    alerts of the threshold check on the computed KPIs. *)
Theorem monitor_kpis_outcome :
  (forall ins, monitor_kpis ins [] = inl "No KPI data available")
  /\ forall (r : outcome_row) (rows : list outcome_row),
       exists d, calculate_kpis (r :: rows) = PyOk d
         /\ (forall ins e, (forall row, ins row = Some e) ->
               monitor_kpis ins (r :: rows) = inl (exc_str e))
         /\ (forall ins, (forall row, ins row = None) ->
               exists s, monitor_kpis ins (r :: rows) = inr s
                 /\ summary_kpis s = d
                 /\ summary_alerts s = check_kpi_thresholds alert_thresholds (kpi_values d)
                 /\ kpis_calculated s = 8%nat
                 /\ alerts_sent s = alerts_generated s
                 /\ (2 <= alerts_generated s <= 6)%nat).
Proof.
  split; [reflexivity|]. intros r rows.
  pose proof (calculate_kpis_cons r rows) as Hc. cbv zeta in Hc.
  set (d := match calculate_kpis (r :: rows) with PyOk d => d | PyRaise _ => [] end).
  assert (Hd : calculate_kpis (r :: rows) = PyOk d) by (unfold d; rewrite Hc; reflexivity).
  pose proof (window_alerts_length (r :: rows) d ltac:(discriminate) Hd) as Hlen.
  assert (Hdc : exists kv d', d = kv :: d') by (unfold d; rewrite Hc; eexists; eexists; reflexivity).
  destruct Hdc as (kv & d' & Edc).
  exists d. split; [exact Hd|]. split.
  - intros ins e He. unfold monitor_kpis. rewrite Hd, Edc.
    rewrite (insert_rows_fail ins e); [reflexivity|exact He|].
    unfold store_kpi_metrics, kpi_values. cbn [map]. discriminate.
  - intros ins Hok. unfold monitor_kpis. rewrite Hd, Edc.
    rewrite (insert_rows_ok ins _ Hok). rewrite <- Edc.
    eexists. split; [reflexivity|].
    cbn [summary_kpis summary_alerts kpis_calculated alerts_sent alerts_generated].
    rewrite send_alert_all.
    repeat split; try assumption; try lia.
Qed.

Lemma monitor_kpis_outcome_witness :
  monitor_kpis (fun _ => Some (DbError "NOT NULL constraint failed: kpis.id")) four_rows
    = inl "NOT NULL constraint failed: kpis.id"
  /\ exists s, monitor_kpis (fun _ => None) four_rows = inr s /\ kpis_calculated s = 8%nat.
Proof.
  destruct (proj2 monitor_kpis_outcome (mk_row true true (9 # 10)) (tl four_rows))
    as (d & _ & Hf & Hs).
  split.
  - apply (Hf _ (DbError "NOT NULL constraint failed: kpis.id")). reflexivity.
  - destruct (Hs (fun _ => None) (fun _ => eq_refl)) as (s & Hm & _ & _ & Hk & _).
    exists s. split; [exact Hm|exact Hk].
Defined.

(** X4.  The [/kpis/calculate] route answers an empty window with HTTP 500
    (detail "404: No data available for KPI calculation"), never with 404,
    whatever the database does.  On any other window it gets the computed
    KPIs and their threshold alerts when the database accepts every INSERT
    into [kpis], and HTTP 500 with detail [str(e)] when it rejects every one
    with [e] (as the repository's schema does). *)
Theorem route_calculate_kpis_outcome :
  (forall ins, route_calculate_kpis ins [] =
    Exn (HTTPException 500 "404: No data available for KPI calculation"))
  /\ (forall ins rows code detail,
        route_calculate_kpis ins rows = Exn (HTTPException code detail) -> code = 500%Z)
  /\ (forall (r : outcome_row) (rows : list outcome_row),
        exists d, calculate_kpis (r :: rows) = PyOk d
          /\ (forall ins, (forall row, ins row = None) ->
                route_calculate_kpis ins (r :: rows) =
                Ret (d, check_kpi_thresholds alert_thresholds (kpi_values d)))
          /\ (forall ins e, (forall row, ins row = Some e) ->
                route_calculate_kpis ins (r :: rows) = Exn (HTTPException 500 (exc_str e)))).
Proof.
  split; [intros ins; vm_compute; reflexivity|split].
  - intros ins rows code detail H. unfold route_calculate_kpis, route_guard in H.
    destruct (match calculate_kpis rows with
              | PyOk [] => _ | PyOk _ => _ | PyRaise _ => _ end);
      congruence.
  - intros r rows. pose proof (calculate_kpis_cons r rows) as Hc. cbv zeta in Hc.
    eexists. split; [exact Hc|]. split.
    + intros ins Hok. unfold route_calculate_kpis. rewrite Hc.
      rewrite (insert_rows_ok ins _ Hok). reflexivity.
    + intros ins e He. unfold route_calculate_kpis. rewrite Hc.
      rewrite (insert_rows_fail ins e); [reflexivity|exact He|].
      unfold store_kpi_metrics, kpi_values. cbn [map]. discriminate.
Qed.

Lemma route_calculate_kpis_outcome_witness :
  route_calculate_kpis (fun _ => Some (DbError "NOT NULL constraint failed: kpis.id")) four_rows
    = Exn (HTTPException 500 "NOT NULL constraint failed: kpis.id")
  /\ exists d, route_calculate_kpis (fun _ => None) four_rows
       = Ret (d, check_kpi_thresholds alert_thresholds (kpi_values d)).
Proof.
  destruct (proj2 (proj2 route_calculate_kpis_outcome)
              (mk_row true true (9 # 10)) (tl four_rows)) as (d & _ & Hs & Hf).
  split.
  - apply (Hf _ (DbError "NOT NULL constraint failed: kpis.id")). reflexivity.
  - exists d. apply Hs. reflexivity.
Defined.

(** ** Stored KPI rows and the KPI summary *)

Lemma count_status_healthy_rows (st : string) (rows : list kpi_row) :
  Forall (fun r => kr_status r = "healthy") rows ->
  count_status st rows = if String.eqb "healthy" st then Z.of_nat (List.length rows) else 0%Z.
Proof.
  unfold count_status. induction rows as [|r rows IH]; intros Hf.
  - destruct (String.eqb "healthy" st); reflexivity.
  - inversion Hf as [|? ? Hr Hf']; subst. cbn [filter]. rewrite Hr.
    specialize (IH Hf').
    destruct (String.eqb "healthy" st); cbn [List.length]; lia.
Qed.

Lemma store_kpi_metrics_healthy (kpis : list (string * Q)) :
  Forall (fun r => kr_status r = "healthy") (store_kpi_metrics kpis).
Proof.
  unfold store_kpi_metrics. apply Forall_forall. intros x Hx.
  apply in_map_iff in Hx. destruct Hx as (kv & <- & _). reflexivity.
Qed.

(** X5.  However many KPI dictionaries [store_kpi_metrics] has written (each
    row with status "healthy"), the KPI summary over those rows reports
    overall_health "healthy", 0 critical and 0 warning alerts and every
    measurement healthy, even for windows whose threshold check raised
    alerts. *)
Theorem kpi_summary_of_stored_rows :
  forall runs : list (list (string * Q)),
    let rows := List.concat (map store_kpi_metrics runs) in
    get_kpi_summary rows =
      mk_kpi_health "healthy" (Z.of_nat (List.length rows)) 0 0
                    (Z.of_nat (List.length rows)).
Proof.
  intros runs. cbv zeta.
  assert (Hf : Forall (fun r => kr_status r = "healthy") (List.concat (map store_kpi_metrics runs))).
  { induction runs as [|k runs IH]; simpl; [constructor|].
    apply Forall_app. split; [apply store_kpi_metrics_healthy|exact IH]. }
  unfold get_kpi_summary.
  rewrite !(count_status_healthy_rows _ _ Hf). reflexivity.
Qed.

(** ** Coverage by category, gaps and the monitoring run *)

Definition zero_coverage : pydict :=
  [("coverage_percentage", VFloat 0); ("total_samples", VInt 0);
   ("covered_samples", VInt 0); ("gap_count", VInt 0)].

Definition coverage_dict (cov : Q) (n pp g : Z) (c : string) (h : Z) : pydict :=
  [("coverage_percentage", VFloat cov); ("total_samples", VInt n);
   ("covered_samples", VInt pp); ("gap_count", VInt g);
   ("risk_category", VStr c); ("time_window_hours", VInt h)].

Lemma calculate_coverage_cons r rows :
  exists cov n pp g,
    (forall c h, calculate_coverage c h (r :: rows) = PyOk (coverage_dict cov n pp g c h))
    /\ (0 < n)%Z.
Proof.
  do 4 eexists. split.
  - intros c h. unfold calculate_coverage, coverage_query. cbn [sql_sum].
    replace (Z.of_nat (List.length (r :: rows)) =? 0)%Z with false
      by (symmetry; apply Z.eqb_neq; cbn [List.length]; lia).
    reflexivity.
  - cbn [List.length]. lia.
Qed.

Lemma coverage_loop_cons_window h r rows cats cov n pp g :
  (forall c h, calculate_coverage c h (r :: rows) = PyOk (coverage_dict cov n pp g c h)) ->
  coverage_loop h (r :: rows) cats = Ret (map (fun c => coverage_dict cov n pp g c h) cats).
Proof.
  intros Hc. induction cats as [|c cs IH]; [reflexivity|].
  cbn [coverage_loop]. rewrite Hc. cbn [of_py obind]. rewrite IH. reflexivity.
Qed.


Definition gap_of (cov t : Q) (c : string) : coverage_gap :=
  mk_gap (VStr c) cov t (t - cov) (if Qltb cov (t * (8 # 10)) then "high" else "medium").

Lemma gaps_of_dict (t cov : Q) (n pp g h : Z) (c : string) (rest : list pydict) :
  gaps_of t (coverage_dict cov n pp g c h :: rest) =
  if Qltb cov t then obind (gaps_of t rest) (fun gs => Ret (gap_of cov t c :: gs))
  else gaps_of t rest.
Proof. reflexivity. Qed.

Lemma gaps_of_window (t cov : Q) (n pp g h : Z) (cats : list string) :
  gaps_of t (map (fun c => coverage_dict cov n pp g c h) cats) =
  Ret (if Qltb cov t then map (gap_of cov t) cats else []).
Proof.
  induction cats as [|c cs IH]; [destruct (Qltb cov t); reflexivity|].
  cbn [map]. rewrite gaps_of_dict, IH.
  destruct (Qltb cov t); reflexivity.
Qed.

Lemma identify_coverage_gaps_cons threshold r rows cov n pp g :
  (forall c h, calculate_coverage c h (r :: rows) = PyOk (coverage_dict cov n pp g c h)) ->
  identify_coverage_gaps threshold (r :: rows) =
  Ret (if Qltb cov (effective_threshold threshold)
       then map (gap_of cov (effective_threshold threshold)) risk_categories else []).
Proof.
  intros Hc. unfold identify_coverage_gaps, get_coverage_by_category.
  rewrite (coverage_loop_cons_window 24 r rows risk_categories cov n pp g Hc).
  cbn [obind]. apply gaps_of_window.
Qed.

Lemma store_coverage_dict (ins : coverage_row -> option raised) (cov : Q) (n pp g h : Z)
    (c : string) :
  store_coverage_metrics ins (coverage_dict cov n pp g c h) =
  match ins (mk_cov_row (VStr c) (VFloat cov) (VInt n) (VInt pp)) with
  | Some e => Exn e
  | None => Ret (mk_cov_row (VStr c) (VFloat cov) (VInt n) (VInt pp))
  end.
Proof. reflexivity. Qed.

Lemma store_all_window (ins : coverage_row -> option raised) (cov : Q) (n pp g h : Z)
    (cats : list string) :
  (forall row, ins row = None) ->
  store_all ins (map (fun c => coverage_dict cov n pp g c h) cats) =
  Ret (map (fun c => mk_cov_row (VStr c) (VFloat cov) (VInt n) (VInt pp)) cats).
Proof.
  intros Hok. induction cats as [|c cs IH]; [reflexivity|].
  cbn [map store_all]. rewrite store_coverage_dict, Hok. cbn [obind]. rewrite IH. reflexivity.
Qed.

Lemma store_all_window_fail (ins : coverage_row -> option raised) (e : raised)
    (cov : Q) (n pp g h : Z) (c : string) (cats : list string) :
  (forall row, ins row = Some e) ->
  store_all ins (map (fun c => coverage_dict cov n pp g c h) (c :: cats)) = Exn e.
Proof.
  intros Hf. cbn [map store_all]. rewrite store_coverage_dict, Hf. reflexivity.
Qed.

Lemma sum_coverage_window (cov : Q) (n pp g h : Z) (cats : list string) :
  sum_coverage (map (fun c => coverage_dict cov n pp g c h) cats) =
  Ret (fold_right (fun _ s => cov + s) 0 cats).
Proof.
  induction cats as [|c cs IH]; [reflexivity|].
  cbn [map sum_coverage]. rewrite IH. reflexivity.
Qed.

(** X6.  [get_coverage_by_category] returns one dictionary per category, in
    the order money_laundering, terrorist_financing, sanctions_evasion,
    fraud.  On a non-empty window the four differ only in risk_category:
    they share coverage_percentage, total_samples, covered_samples and
    gap_count, the query ignoring the category.  On an empty window they are
    four copies of the zero dictionary, which has no risk_category key. *)
Theorem get_coverage_by_category_shape :
  forall h : Z,
    get_coverage_by_category h [] =
      Ret [zero_coverage; zero_coverage; zero_coverage; zero_coverage]
    /\ dict_get "risk_category" zero_coverage = None
    /\ forall (r : join_row) (rows : list join_row),
         exists cov n pp g, (0 < n)%Z /\
           get_coverage_by_category h (r :: rows) =
           Ret (map (fun c => coverage_dict cov n pp g c h) risk_categories).
Proof.
  intros h. split; [reflexivity|split; [reflexivity|]].
  intros r rows. destruct (calculate_coverage_cons r rows) as (cov & n & pp & g & Hc & Hn).
  exists cov, n, pp, g. split; [exact Hn|].
  apply coverage_loop_cons_window. exact Hc.
Qed.




(** X9.  [monitor_coverage] on an empty window returns the error
    "'risk_category'" (the KeyError of the gap search), whatever the
    database does.  On a non-empty window: when the database rejects every
    INSERT into [risk_coverage] with [e] (as the repository's schema does),
    it returns [str(e)] as the error; when it accepts every INSERT, it
    reports 4 categories, either 0 or 4 of them below the 95 threshold
    according as the common coverage is below 95, an average coverage equal
    to that common coverage, and stores 4 rows. *)
Theorem monitor_coverage_outcome :
  (forall ins, monitor_coverage ins [] = inl "'risk_category'")
  /\ forall (r : join_row) (rows : list join_row),
       exists cov,
         get_float "coverage_percentage" (calculate_coverage "fraud" 24 (r :: rows)) = Some cov
         /\ (forall ins e, (forall row, ins row = Some e) ->
               monitor_coverage ins (r :: rows) = inl (exc_str e))
         /\ (forall ins, (forall row, ins row = None) ->
               exists s, monitor_coverage ins (r :: rows) = inr s
                 /\ total_categories s = 4%nat
                 /\ categories_below_threshold s = (if Qltb cov 95 then 4 else 0)%nat
                 /\ average_coverage s == cov
                 /\ List.length (cs_stored s) = 4%nat).
Proof.
  split; [intros ins; vm_compute; reflexivity|].
  intros r rows. destruct (calculate_coverage_cons r rows) as (cov & n & pp & g & Hc & Hn).
  exists cov. split; [rewrite Hc; reflexivity|]. split.
  - intros ins e Hf. unfold monitor_coverage.
    rewrite (identify_coverage_gaps_cons None r rows cov n pp g Hc).
    unfold get_coverage_by_category.
    rewrite (coverage_loop_cons_window 24 r rows risk_categories cov n pp g Hc).
    cbn [obind]. unfold risk_categories. rewrite (store_all_window_fail ins e); [|exact Hf].
    reflexivity.
  - intros ins Hok. unfold monitor_coverage.
    rewrite (identify_coverage_gaps_cons None r rows cov n pp g Hc).
    unfold get_coverage_by_category.
    rewrite (coverage_loop_cons_window 24 r rows risk_categories cov n pp g Hc).
    cbn [obind]. rewrite (store_all_window ins); [|exact Hok].
    rewrite sum_coverage_window. cbn [obind].
    eexists. split; [reflexivity|].
    cbn [total_categories categories_below_threshold average_coverage cs_stored].
    change (effective_threshold None) with 95.
    split; [reflexivity|split; [destruct (Qltb cov 95); reflexivity|split]].
    + cbn [fold_right List.length map risk_categories]. field.
    + reflexivity.
Qed.

Lemma monitor_coverage_outcome_witness :
  monitor_coverage (fun _ => Some (DbError "NOT NULL constraint failed: risk_coverage.id"))
    three_frauds = inl "NOT NULL constraint failed: risk_coverage.id"
  /\ exists s, monitor_coverage (fun _ => None) three_frauds = inr s
       /\ List.length (cs_stored s) = 4%nat.
Proof.
  destruct (proj2 monitor_coverage_outcome (mk_jrow 1 (Some 1%Z)) (tl three_frauds))
    as (cov & _ & Hf & Hs).
  split.
  - apply (Hf _ (DbError "NOT NULL constraint failed: risk_coverage.id")). reflexivity.
  - destruct (Hs (fun _ => None) (fun _ => eq_refl)) as (s & Hm & _ & _ & _ & Hl).
    exists s. split; [exact Hm|exact Hl].
Defined.

(** ** Covariate drift and the drift monitoring run *)

Lemma dict_get_set_same k v d : dict_get k (dict_set k v d) = Some v.
Proof.
  induction d as [|[k' v'] d IH]; simpl; [rewrite String.eqb_refl; reflexivity|].
  destruct (String.eqb k k') eqn:E; simpl; rewrite E; [reflexivity|exact IH].
Qed.

Lemma dict_get_set_other k k0 v d :
  k0 <> k -> dict_get k0 (dict_set k v d) = dict_get k0 d.
Proof.
  intros Hne. induction d as [|[k' v'] d IH]; simpl.
  - apply String.eqb_neq in Hne. rewrite Hne. reflexivity.
  - destruct (String.eqb k k') eqn:E; simpl.
    + apply String.eqb_eq in E. subst k'.
      apply String.eqb_neq in Hne. rewrite Hne. reflexivity.
    + destruct (String.eqb k0 k'); [reflexivity|exact IH].
Qed.

Definition concept_dict (f : string) (rows : list (Z * Z)) : pydict :=
  match detect_concept_drift f rows with PyOk d => d | PyRaise _ => [] end.

Definition covariate_dict t p (b c : list Q) (f : string) : pydict :=
  match detect_covariate_drift t p b c f with PyOk d => d | PyRaise _ => [] end.

Definition short_concept (rows : list (Z * Z)) : bool :=
  Nat.ltb (List.length (bucket_accuracies rows)) 2.

Lemma detect_concept_drift_ok f rows :
  detect_concept_drift f rows = PyOk (concept_dict f rows).
Proof.
  unfold concept_dict, detect_concept_drift. destruct rows; [reflexivity|].
  destruct (Nat.ltb _ 2); reflexivity.
Qed.

Lemma concept_dict_short f rows :
  short_concept rows = true -> concept_dict f rows = concept_no_drift.
Proof.
  unfold short_concept, concept_dict, detect_concept_drift. intros H.
  destruct rows; [reflexivity|]. rewrite H. reflexivity.
Qed.

Lemma concept_dict_long f rows :
  short_concept rows = false ->
  dict_get "feature_name" (concept_dict f rows) = Some (VStr f)
  /\ (exists ds pv, dict_get "drift_score" (concept_dict f rows) = Some ds
                   /\ dict_get "p_value" (concept_dict f rows) = Some pv)
  /\ (exists dd, dict_get "drift_detected" (concept_dict f rows) = Some dd).
Proof.
  unfold short_concept, concept_dict, detect_concept_drift. intros H.
  destruct rows; [discriminate|]. rewrite H.
  split; [reflexivity|split; do 2 eexists; split; reflexivity].
Qed.

(** The keys counted by [monitor_drift] do not depend on the feature. *)
Lemma concept_dict_indep f f' rows :
  dict_get "drift_detected" (concept_dict f rows) = dict_get "drift_detected" (concept_dict f' rows)
  /\ is_high (concept_dict f rows) = is_high (concept_dict f' rows).
Proof.
  unfold concept_dict, detect_concept_drift. destruct rows; [split; reflexivity|].
  destruct (Nat.ltb _ 2); split; reflexivity.
Qed.

Lemma detect_covariate_drift_ok t p b c f :
  detect_covariate_drift t p b c f = PyOk (covariate_dict t p b c f).
Proof.
  unfold covariate_dict, detect_covariate_drift, detect_statistical_drift.
  destruct c; [reflexivity|]. destruct b; reflexivity.
Qed.

Lemma covariate_dict_short t p b c f :
  b = [] \/ c = [] -> covariate_dict t p b c f = covariate_no_drift.
Proof.
  unfold covariate_dict, detect_covariate_drift, detect_statistical_drift.
  intros [->| ->]; [destruct c|]; reflexivity.
Qed.

Lemma covariate_dict_long t p b c f :
  b <> [] -> c <> [] ->
  exists d, detect_statistical_drift t p b c f = PyOk d
    /\ covariate_dict t p b c f = dict_set "drift_type" (VStr "covariate") d.
Proof.
  intros Hb Hc. unfold covariate_dict, detect_covariate_drift.
  destruct c as [|x c]; [contradiction|]. destruct b as [|y b]; [contradiction|].
  eexists. split; reflexivity.
Qed.

Lemma covariate_dict_indep t p b c f f' :
  dict_get "drift_detected" (covariate_dict t p b c f)
    = dict_get "drift_detected" (covariate_dict t p b c f')
  /\ is_high (covariate_dict t p b c f) = is_high (covariate_dict t p b c f').
Proof.
  unfold covariate_dict, detect_covariate_drift, detect_statistical_drift.
  destruct c; [split; reflexivity|]. destruct b; split; reflexivity.
Qed.

Lemma store_drift_missing ins d :
  dict_get "feature_name" d = None -> store_drift_metrics ins d = Exn (KeyError "feature_name").
Proof. intros H. unfold store_drift_metrics, dict_lookup. rewrite H. reflexivity. Qed.

Lemma store_drift_present d fnm ds pv dd :
  dict_get "feature_name" d = Some fnm -> dict_get "drift_score" d = Some ds ->
  dict_get "p_value" d = Some pv -> dict_get "drift_detected" d = Some dd ->
  exists r, forall ins,
    store_drift_metrics ins d = match ins r with Some e => Exn e | None => Ret r end.
Proof.
  intros H1 H2 H3 H4. unfold store_drift_metrics, dict_lookup.
  rewrite H1, H2, H3, H4. eexists. intros ins. reflexivity.
Qed.

Lemma store_concept_long ins f rows :
  short_concept rows = false ->
  exists r, store_drift_metrics ins (concept_dict f rows) =
            match ins r with Some e => Exn e | None => Ret r end.
Proof.
  intros Hs. destruct (concept_dict_long f rows Hs) as (H1 & (ds & pv & H2 & H3) & (dd & H4)).
  destruct (store_drift_present _ _ _ _ _ H1 H2 H3 H4) as (r & Hr).
  exists r. apply Hr.
Qed.

Lemma drift_loop_ok t p ins rows b c fs
    (sc sv : string -> drift_row) :
  (forall f, store_drift_metrics ins (concept_dict f rows) = Ret (sc f)) ->
  (forall f, store_drift_metrics ins (covariate_dict t p b c f) = Ret (sv f)) ->
  drift_loop t p ins rows b c fs =
  Ret (flat_map (fun f => [concept_dict f rows; covariate_dict t p b c f]) fs,
       flat_map (fun f => [sc f; sv f]) fs).
Proof.
  intros Hc Hv. induction fs as [|f fs IH]; [reflexivity|].
  cbn [drift_loop]. rewrite detect_concept_drift_ok, detect_covariate_drift_ok.
  cbn [of_py obind]. rewrite Hc, Hv. cbn [obind]. rewrite IH. reflexivity.
Qed.

(** The first INSERT of the loop is the one of the first concept result. *)
Lemma drift_loop_fail t p ins e rows b c f fs :
  short_concept rows = false -> (forall row, ins row = Some e) ->
  drift_loop t p ins rows b c (f :: fs) = Exn e.
Proof.
  intros Hs Hf. cbn [drift_loop]. rewrite detect_concept_drift_ok, detect_covariate_drift_ok.
  cbn [of_py obind]. destruct (store_concept_long ins f rows Hs) as (r & ->).
  rewrite Hf. reflexivity.
Qed.

Lemma count_detected_flat t p rows b c (fs : list string) vc vv :
  (forall f, dict_get "drift_detected" (concept_dict f rows) = Some vc) ->
  (forall f, dict_get "drift_detected" (covariate_dict t p b c f) = Some vv) ->
  count_detected (flat_map (fun f => [concept_dict f rows; covariate_dict t p b c f]) fs) =
  Ret (List.length fs * ((if py_truthy vc then 1 else 0) + (if py_truthy vv then 1 else 0)))%nat.
Proof.
  intros Hc Hv. induction fs as [|f fs IH]; [reflexivity|].
  cbn [flat_map app count_detected]. unfold dict_lookup at 1. rewrite Hc. cbn [obind].
  unfold dict_lookup at 1. rewrite Hv. cbn [obind].
  rewrite IH. cbn [obind]. f_equal. cbn [List.length].
  destruct (py_truthy vc), (py_truthy vv); lia.
Qed.

Lemma high_flat t p rows b c (fs : list string) hc hv :
  (forall f, is_high (concept_dict f rows) = hc) ->
  (forall f, is_high (covariate_dict t p b c f) = hv) ->
  List.length (filter is_high
    (flat_map (fun f => [concept_dict f rows; covariate_dict t p b c f]) fs)) =
  (List.length fs * ((if hc then 1 else 0) + (if hv then 1 else 0)))%nat.
Proof.
  intros Hc Hv. induction fs as [|f fs IH]; [reflexivity|].
  cbn [flat_map app filter]. rewrite Hc, Hv.
  destruct hc, hv; cbn [List.length]; rewrite ?IH; cbn [List.length]; lia.
Qed.

(** X10.  [detect_covariate_drift] always returns drift_type "covariate".
    When either sample is empty the result is the covariate no-drift
    dictionary (score 0.0, p-value 1.0, not detected, no severity and no
    feature_name).  Otherwise every other key holds the value the
    statistical detector gives on the same samples. *)
Theorem detect_covariate_drift_result :
  forall (t : Q) (p : list Q -> list Q -> Q) (b c : list Q) (f : string),
    exists d, detect_covariate_drift t p b c f = PyOk d
      /\ dict_get "drift_type" d = Some (VStr "covariate")
      /\ ((b = [] \/ c = []) -> d = covariate_no_drift)
      /\ (b <> [] -> c <> [] -> forall k, k <> "drift_type" ->
            dict_get k d = match detect_statistical_drift t p b c f with
                           | PyOk s => dict_get k s | PyRaise _ => None end).
Proof.
  intros t p b c f. exists (covariate_dict t p b c f).
  split; [apply detect_covariate_drift_ok|].
  split; [|split].
  - destruct b as [|y b]; [rewrite covariate_dict_short by (left; reflexivity); reflexivity|].
    destruct c as [|x c]; [rewrite covariate_dict_short by (right; reflexivity); reflexivity|].
    destruct (covariate_dict_long t p (y :: b) (x :: c) f) as (d & _ & ->);
      [discriminate|discriminate|].
    apply dict_get_set_same.
  - apply covariate_dict_short.
  - intros Hb Hc k Hk. destruct (covariate_dict_long t p b c f Hb Hc) as (d & Hd & ->).
    rewrite Hd. apply dict_get_set_other. exact Hk.
Qed.

Lemma detect_covariate_drift_result_witness :
  dict_get "drift_score" (covariate_dict 0 ks_pvalue_example [0] [1] "transaction_amount")
  = Some (VFloat (round4 1)).
Proof.
  destruct (detect_covariate_drift_result 0 ks_pvalue_example [0] [1] "transaction_amount")
    as (d & Hd & _ & _ & H).
  rewrite detect_covariate_drift_ok in Hd. injection Hd as ->.
  rewrite (H ltac:(discriminate) ltac:(discriminate) "drift_score" ltac:(discriminate)).
  vm_compute. reflexivity.
Defined.

(** X11.  When the hourly accuracy query yields fewer than two usable
    buckets, [monitor_drift] returns the error "'feature_name'" whatever the
    database does: [store_drift_metrics] reads the feature_name key, which
    the concept no-drift dictionary lacks, before any INSERT.  When either
    amount sample is empty and the database accepts the INSERTs, it returns
    the same error, from the covariate no-drift dictionary. *)
Theorem monitor_drift_short_data :
  forall (t : Q) (p : list Q -> list Q -> Q) (ins : drift_row -> option raised)
         (rows : list (Z * Z)) (b c : list Q),
    short_concept rows = true \/ ((b = [] \/ c = []) /\ forall row, ins row = None) ->
    monitor_drift t p ins rows b c = inl "'feature_name'".
Proof.
  intros t p ins rows b c H. unfold monitor_drift, drift_features.
  cbn [drift_loop]. rewrite detect_concept_drift_ok, detect_covariate_drift_ok.
  cbn [of_py obind].
  destruct (short_concept rows) eqn:Es.
  - rewrite concept_dict_short by exact Es.
    rewrite store_drift_missing by reflexivity. reflexivity.
  - destruct H as [H|[Hbc Hok]]; [discriminate|].
    destruct (store_concept_long ins "transaction_amount" rows Es) as (r & ->).
    rewrite Hok. cbn [obind].
    rewrite covariate_dict_short by exact Hbc.
    rewrite store_drift_missing by reflexivity. reflexivity.
Qed.

Lemma monitor_drift_short_data_witness :
  monitor_drift 0 ks_pvalue_example
    (fun _ => Some (DbError "NOT NULL constraint failed: drift_detection.id"))
    [(1, 1)]%Z [0] [1] = inl "'feature_name'"
  /\ monitor_drift 0 ks_pvalue_example (fun _ => None) five_buckets [] [] = inl "'feature_name'".
Proof.
  split.
  - apply monitor_drift_short_data. left. vm_compute. reflexivity.
  - apply monitor_drift_short_data. right. split; [left; reflexivity|intros; reflexivity].
Defined.

(** X12.  With at least two usable accuracy buckets, [monitor_drift] returns
    [str(e)] as the error when the database rejects every INSERT into
    [drift_detection] with [e] (as the repository's database does).  When
    it accepts every INSERT and both amount samples are non-empty, it
    returns a summary over the 3 features with 6 results, concept then
    covariate for each feature, and 6 stored rows.  Since neither query
    depends on the feature, each drift event is counted once per feature:
    total_drift_events and high_severity_events are multiples of 3. *)
Theorem monitor_drift_counts :
  forall (t : Q) (p : list Q -> list Q -> Q) (ins : drift_row -> option raised)
         (rows : list (Z * Z)) (b c : list Q),
    short_concept rows = false ->
    (forall e, (forall row, ins row = Some e) -> monitor_drift t p ins rows b c = inl (exc_str e))
    /\ ((forall row, ins row = None) -> b <> [] -> c <> [] ->
        exists s, monitor_drift t p ins rows b c = inr s
          /\ features_monitored s = 3%nat
          /\ drift_results s =
             flat_map (fun f => [concept_dict f rows; covariate_dict t p b c f]) drift_features
          /\ List.length (drift_stored s) = 6%nat
          /\ (exists k, total_drift_events s = 3 * k)%nat
          /\ (exists k, high_severity_events s = 3 * k)%nat).
Proof.
  intros t p ins rows b c Hs. split.
  { intros e Hf. unfold monitor_drift, drift_features.
    rewrite (drift_loop_fail t p ins e rows b c); [reflexivity|exact Hs|exact Hf]. }
  intros Hok Hb Hc.
  assert (Hsc : forall f, exists r, store_drift_metrics ins (concept_dict f rows) = Ret r).
  { intros f. destruct (store_concept_long ins f rows Hs) as (r & ->).
    rewrite Hok. eexists. reflexivity. }
  assert (Hsv : forall f, exists r, store_drift_metrics ins (covariate_dict t p b c f) = Ret r).
  { intros f. destruct (covariate_dict_long t p b c f Hb Hc) as (d & Hd & ->).
    destruct b as [|y b']; [contradiction|]. destruct c as [|x c']; [contradiction|].
    injection Hd as <-.
    destruct (store_drift_present (dict_set "drift_type" (VStr "covariate")
                (match detect_statistical_drift t p (y :: b') (x :: c') f with
                 | PyOk d => d | PyRaise _ => [] end)) (VStr f) (VFloat (round4 (ks_statistic (y :: b') (x :: c'))))
                (VFloat (round4 (p (y :: b') (x :: c'))))
                (VBool (Qltb (p (y :: b') (x :: c')) (5 # 100) && Qltb t (ks_statistic (y :: b') (x :: c')))))
      as (r & Hr);
      try (rewrite dict_get_set_other by discriminate; reflexivity).
    rewrite Hr, Hok. eexists. reflexivity. }
  set (sc := fun f => match store_drift_metrics ins (concept_dict f rows) with
                      | Ret r => r | Exn _ => mk_drift_row (VInt 0) (VInt 0) (VInt 0) (VInt 0) (VInt 0) (VInt 0) end).
  set (sv := fun f => match store_drift_metrics ins (covariate_dict t p b c f) with
                      | Ret r => r | Exn _ => mk_drift_row (VInt 0) (VInt 0) (VInt 0) (VInt 0) (VInt 0) (VInt 0) end).
  assert (Hsc' : forall f, store_drift_metrics ins (concept_dict f rows) = Ret (sc f))
    by (intros f; unfold sc; destruct (Hsc f) as (r & ->); reflexivity).
  assert (Hsv' : forall f, store_drift_metrics ins (covariate_dict t p b c f) = Ret (sv f))
    by (intros f; unfold sv; destruct (Hsv f) as (r & ->); reflexivity).
  destruct (concept_dict_long "transaction_amount" rows Hs) as (_ & _ & (vc & Hvc)).
  assert (Hvd : exists vv, dict_get "drift_detected"
                  (covariate_dict t p b c "transaction_amount") = Some vv).
  { destruct (covariate_dict_long t p b c "transaction_amount" Hb Hc) as (d & Hd & ->).
    destruct b as [|y b']; [contradiction|]. destruct c as [|x c']; [contradiction|].
    injection Hd as <-. rewrite dict_get_set_other by discriminate. eexists. reflexivity. }
  destruct Hvd as (vv & Hvv).
  assert (Hcd : forall f, dict_get "drift_detected" (concept_dict f rows) = Some vc)
    by (intros f; rewrite <- Hvc; apply concept_dict_indep).
  assert (Hvd : forall f, dict_get "drift_detected" (covariate_dict t p b c f) = Some vv)
    by (intros f; rewrite <- Hvv; apply covariate_dict_indep).
  assert (Hch : forall f, is_high (concept_dict f rows) =
                          is_high (concept_dict "transaction_amount" rows))
    by (intros f; apply concept_dict_indep).
  assert (Hvh : forall f, is_high (covariate_dict t p b c f) =
                          is_high (covariate_dict t p b c "transaction_amount"))
    by (intros f; apply covariate_dict_indep).
  unfold monitor_drift. rewrite (drift_loop_ok t p ins rows b c drift_features sc sv Hsc' Hsv').
  cbn [obind fst snd]. rewrite (count_detected_flat t p rows b c drift_features vc vv Hcd Hvd).
  cbn [obind]. eexists. split; [reflexivity|].
  cbn [features_monitored drift_results drift_stored total_drift_events high_severity_events].
  rewrite (high_flat t p rows b c drift_features _ _ Hch Hvh).
  split; [reflexivity|split; [reflexivity|split; [reflexivity|split]]];
    eexists; reflexivity.
Qed.

Lemma monitor_drift_counts_witness :
  monitor_drift 0 ks_pvalue_example
    (fun _ => Some (DbError "NOT NULL constraint failed: drift_detection.id"))
    five_buckets [0] [1] = inl "NOT NULL constraint failed: drift_detection.id"
  /\ exists s, monitor_drift 0 ks_pvalue_example (fun _ => None) five_buckets [0] [1] = inr s
    /\ features_monitored s = 3%nat.
Proof.
  destruct (monitor_drift_counts 0 ks_pvalue_example (fun _ => None) five_buckets [0] [1]
              ltac:(vm_compute; reflexivity)) as [_ Hs].
  split.
  - exact (proj1 (monitor_drift_counts 0 ks_pvalue_example
             (fun _ => Some (DbError "NOT NULL constraint failed: drift_detection.id"))
             five_buckets [0] [1] ltac:(vm_compute; reflexivity))
             (DbError "NOT NULL constraint failed: drift_detection.id") (fun _ => eq_refl)).
  - destruct (Hs (fun _ => eq_refl) ltac:(discriminate) ltac:(discriminate))
      as (s & H1 & H2 & _).
    exists s. split; assumption.
Defined.

Lemma ks_statistic_self (b : list Q) : ks_statistic b b = 0.
Proof.
  unfold ks_statistic. generalize (app b b). intros l.
  induction l as [|x l IH]; [reflexivity|]. cbn [fold_left].
  unfold qmax at 2.
  replace (Qltb 0 (Qabs (ecdf b x - ecdf b x))) with false; [exact IH|].
  symmetry. apply Qltb_false. apply Qabs_Qle_condition. lra.
Qed.

(** X13.  Two identical non-empty samples give a KS statistic of exactly 0:
    with a non-negative drift threshold the statistical detector then
    reports drift_score 0, severity "low" and no drift, whatever p-value the
    test returns. *)
Theorem detect_statistical_drift_identical :
  forall (t : Q) (p : list Q -> list Q -> Q) (b : list Q) (f : string),
    b <> [] -> 0 <= t ->
    detect_statistical_drift t p b b f =
    PyOk [("drift_score", VFloat (round4 0)); ("p_value", VFloat (round4 (p b b)));
          ("drift_detected", VBool false); ("drift_type", VStr "statistical");
          ("severity", VStr "low"); ("feature_name", VStr f)].
Proof.
  intros t p b f Hb Ht. destruct b as [|y b']; [contradiction|].
  unfold detect_statistical_drift. rewrite ks_statistic_self.
  replace (Qltb t 0) with false by (symmetry; apply Qltb_false; exact Ht).
  rewrite andb_false_r. reflexivity.
Qed.

Lemma detect_statistical_drift_identical_witness :
  detect_statistical_drift (1 # 10) ks_pvalue_example [5; 7] [5; 7] "transaction_amount" =
  PyOk [("drift_score", VFloat (round4 0));
        ("p_value", VFloat (round4 (ks_pvalue_example [5; 7] [5; 7])));
        ("drift_detected", VBool false); ("drift_type", VStr "statistical");
        ("severity", VStr "low"); ("feature_name", VStr "transaction_amount")].
Proof.
  apply detect_statistical_drift_identical; [discriminate|vm_compute; discriminate].
Defined.

(** ** Playbook registry routes *)

Lemma ymap_get_set_same k v m : ymap_get k (ymap_set k v m) = Some v.
Proof.
  induction m as [|[k' v'] m IH]; simpl; [rewrite String.eqb_refl; reflexivity|].
  destruct (String.eqb k k') eqn:E; simpl; rewrite E; [reflexivity|exact IH].
Qed.

Lemma ymap_get_set_other k k0 v m :
  k0 <> k -> ymap_get k0 (ymap_set k v m) = ymap_get k0 m.
Proof.
  intros Hne. induction m as [|[k' v'] m IH]; simpl.
  - apply String.eqb_neq in Hne. rewrite Hne. reflexivity.
  - destruct (String.eqb k k') eqn:E; simpl.
    + apply String.eqb_eq in E. subst k'.
      apply String.eqb_neq in Hne. rewrite Hne. reflexivity.
    + destruct (String.eqb k0 k'); [reflexivity|exact IH].
Qed.

Lemma ymap_set_nonempty k v m : ymap_set k v m <> [].
Proof. destruct m as [|[k' v'] m]; simpl; [discriminate|destruct (String.eqb k k'); discriminate]. Qed.

Lemma route_guard_exn {A} (e : raised) :
  @route_guard A (Exn e) = Exn (HTTPException 500 (exc_str e)).
Proof. reflexivity. Qed.

Lemma exc_str_http (code : Z) (detail : string) :
  exc_str (HTTPException code detail) = z_to_decimal code ++ ": " ++ detail.
Proof. reflexivity. Qed.

Lemma check_required_ok (fields : list string) (data : yobj) :
  (forall f, In f fields -> exists v, ymap_get f data = Some v) ->
  check_required fields data = Ret tt.
Proof.
  induction fields as [|f fs IH]; intros H; [reflexivity|].
  simpl. destruct (H f (or_introl eq_refl)) as (v & ->).
  apply IH. intros g Hg. apply H. right. exact Hg.
Qed.

Lemma check_required_ret (fields : list string) (data : yobj) u :
  check_required fields data = Ret u ->
  forall f, In f fields -> exists v, ymap_get f data = Some v.
Proof.
  induction fields as [|f fs IH]; intros H g Hg; [contradiction|].
  simpl in H. destruct (ymap_get f data) as [v|] eqn:E; [|discriminate].
  destruct Hg as [<-|Hg]; [exists v; exact E|exact (IH H g Hg)].
Qed.

(** The items the comprehension of [get_playbooks] keeps. *)
Definition is_active_item (q : yval) : bool :=
  match q with
  | YMap pm => ytruthy (ymap_get_default "is_active" (YBool true) pm)
  | _ => false
  end.

Lemma filter_active_maps (l : list yval) :
  (forall q, In q l -> exists pm, q = YMap pm) ->
  filter_active l = Ret (filter is_active_item l).
Proof.
  induction l as [|q l IH]; intros H; [reflexivity|].
  destruct (H q (or_introl eq_refl)) as (pm & ->).
  cbn [filter_active py_get_default obind].
  rewrite IH by (intros q' Hq'; apply H; right; exact Hq').
  reflexivity.
Qed.

Lemma filter_active_nonmap (l : list yval) :
  (exists q, In q l /\ forall pm, q <> YMap pm) ->
  exists q, In q l /\ (forall pm, q <> YMap pm) /\ filter_active l = Exn (no_attr q "get").
Proof.
  induction l as [|q l IH]; intros (q0 & Hin & Hq0); [contradiction|].
  destruct q as [| b | z | r | s | l' | pm];
    try (eexists; split; [left; reflexivity|];
         split; [intros pm' Hc; discriminate Hc|reflexivity]).
  destruct Hin as [<-|Hin]; [exfalso; exact (Hq0 pm eq_refl)|].
  destruct (IH (ex_intro _ q0 (conj Hin Hq0))) as (q & Hq & Hnm & Hf).
  exists q. split; [right; exact Hq|split; [exact Hnm|]].
  cbn [filter_active py_get_default obind]. rewrite Hf. reflexivity.
Qed.

Lemma find_playbook_app_fresh (id : Z) (l1 l2 : list yval) :
  Forall (fun q => exists m, q = YMap m /\ yeq_int (ymap_get "id" m) id = false) l1 ->
  find_playbook id (app l1 l2) = find_playbook id l2.
Proof.
  induction 1 as [|q l1 (m & -> & Hm) _ IH]; [reflexivity|].
  cbn [app find_playbook]. rewrite Hm. exact IH.
Qed.

Lemma find_playbook_some (id : Z) (items : list yval) (p : yobj) :
  find_playbook id items = Ret (Some p) ->
  exists pre post, items = app pre (YMap p :: post)
    /\ Forall (fun q => exists m, q = YMap m /\ yeq_int (ymap_get "id" m) id = false) pre
    /\ yeq_int (ymap_get "id" p) id = true.
Proof.
  induction items as [|q items IH]; intros H; [discriminate|].
  destruct q as [| | | | | |m]; cbn [find_playbook] in H; try discriminate.
  destruct (yeq_int (ymap_get "id" m) id) eqn:E.
  - injection H as <-. exists [], items. split; [reflexivity|split; [constructor|exact E]].
  - destruct (IH H) as (pre & post & -> & Hpre & Hp).
    exists (YMap m :: pre), post. split; [reflexivity|split; [|exact Hp]].
    constructor; [exists m; split; [reflexivity|exact E]|exact Hpre].
Qed.

Lemma new_playbook_get_id n data c u :
  ymap_get "id" (new_playbook n data c u) = Some (YInt (n + 1)).
Proof.
  unfold new_playbook.
  rewrite ymap_get_set_other by discriminate. rewrite ymap_get_set_other by discriminate.
  apply ymap_get_set_same.
Qed.

Lemma new_playbook_get_name n data c u :
  ymap_get "name" (new_playbook n data c u) = ymap_get "name" data.
Proof.
  unfold new_playbook.
  rewrite !ymap_get_set_other by discriminate. reflexivity.
Qed.

(** The playbooks list [create_playbook] appends to. *)
Definition prior_playbooks (reg : option yval) : list yval :=
  match reg with
  | Some (YMap m) => match ymap_get "playbooks" m with Some (YList l) => l | _ => [] end
  | _ => []
  end.

Lemma create_playbook_ret reg data c u r' p :
  create_playbook reg data c u = Ret (r', p) ->
  (forall f, In f ["name"; "trigger_conditions"; "actions"] ->
     exists v, ymap_get f data = Some v)
  /\ p = new_playbook (Z.of_nat (List.length (prior_playbooks reg))) data c u
  /\ exists m, r' = YMap (ymap_set "playbooks" (YList (app (prior_playbooks reg) [YMap p])) m).
Proof.
  unfold create_playbook. intros H.
  destruct (check_required _ data) as [[]|e] eqn:Ec; [|discriminate].
  cbn [obind] in H.
  pose proof (check_required_ret _ _ _ Ec) as Hreq.
  destruct reg as [r|].
  - destruct r as [| | | | | |m]; cbn [py_getitem obind route_guard] in H; try discriminate.
    destruct (ymap_get "playbooks" m) as [pbs|] eqn:Epb; cbn [obind route_guard] in H;
      [|discriminate].
    destruct pbs; cbn [py_len obind route_guard] in H; try discriminate.
    injection H as <- <-. unfold prior_playbooks. rewrite Epb.
    split; [exact Hreq|split; [reflexivity|exists m; reflexivity]].
  - change (py_getitem "playbooks" (YMap [("playbooks", YList [])])) with (@Ret yval (YList []))
      in H.
    cbn [obind py_len route_guard List.length] in H.
    injection H as <- <-.
    split; [exact Hreq|split; [reflexivity|exists [("playbooks", YList [])]; reflexivity]].
Qed.

(** X14.  [get_playbooks] returns [] when the registry file is missing.  A
    registry document that is not a mapping (e.g. an empty file, loaded as
    None) gives HTTP 500 "'<type>' object has no attribute 'get'"; a
    mapping without a playbooks key gives []; a null playbooks entry gives
    HTTP 500 ("'NoneType' object is not iterable" with [active_only], else
    "object of type 'NoneType' has no len()").  For a playbooks list, all
    of it comes back when [active_only] is false; with [active_only], when
    every item is a mapping it keeps exactly those whose is_active is absent
    or truthy, and otherwise it answers HTTP 500 with the AttributeError of
    a non-mapping item. *)
Theorem get_playbooks_filter :
  (forall active_only : bool, get_playbooks None active_only = Ret (YList []))
  /\ (forall (v : yval) (active_only : bool), (forall m, v <> YMap m) ->
        get_playbooks (Some v) active_only =
        Exn (HTTPException 500 ("'" ++ ytype_name v ++ "' object has no attribute 'get'")))
  /\ (forall (m : yobj) (active_only : bool), ymap_get "playbooks" m = None ->
        get_playbooks (Some (YMap m)) active_only = Ret (YList []))
  /\ (forall m : yobj, ymap_get "playbooks" m = Some YNull ->
        get_playbooks (Some (YMap m)) true =
          Exn (HTTPException 500 "'NoneType' object is not iterable")
        /\ get_playbooks (Some (YMap m)) false =
          Exn (HTTPException 500 "object of type 'NoneType' has no len()"))
  /\ (forall (m : yobj) (l : list yval), ymap_get "playbooks" m = Some (YList l) ->
        get_playbooks (Some (YMap m)) false = Ret (YList l)
        /\ ((forall q, In q l -> exists pm, q = YMap pm) ->
            exists kept, get_playbooks (Some (YMap m)) true = Ret (YList kept)
              /\ forall q, In q kept <-> In q l /\ exists pm, q = YMap pm /\
                   (ymap_get "is_active" pm = None \/
                    exists v, ymap_get "is_active" pm = Some v /\ ytruthy v = true))
        /\ ((exists q, In q l /\ forall pm, q <> YMap pm) ->
            exists q, In q l /\ (forall pm, q <> YMap pm) /\
              get_playbooks (Some (YMap m)) true =
              Exn (HTTPException 500 ("'" ++ ytype_name q ++ "' object has no attribute 'get'")))).
Proof.
  split; [reflexivity|split; [|split; [|split]]].
  - intros v b Hv. destruct v as [| | | | | |m]; try reflexivity.
    exfalso. exact (Hv m eq_refl).
  - intros m b H. unfold get_playbooks. cbn [py_get_default obind].
    unfold ymap_get_default. rewrite H. destruct b; reflexivity.
  - intros m H. unfold get_playbooks. cbn [py_get_default obind].
    unfold ymap_get_default. rewrite H. split; reflexivity.
  - intros m l H. unfold get_playbooks. cbn [py_get_default obind].
    unfold ymap_get_default. rewrite H. split; [reflexivity|split].
    + intros Hall. cbn [py_iter obind]. rewrite (filter_active_maps l Hall).
      eexists. split; [reflexivity|]. intros q. rewrite filter_In. split.
      * intros [Hin Ha]. destruct (Hall q Hin) as (pm & ->).
        split; [exact Hin|exists pm; split; [reflexivity|]].
        cbn [is_active_item] in Ha. unfold ymap_get_default in Ha.
        destruct (ymap_get "is_active" pm) as [v|];
          [right; exists v; split; [reflexivity|exact Ha]|left; reflexivity].
      * intros [Hin (pm & -> & Hact)]. split; [exact Hin|].
        cbn [is_active_item]. unfold ymap_get_default.
        destruct Hact as [->|(v & -> & Hv)]; [reflexivity|exact Hv].
    + intros Hex. destruct (filter_active_nonmap l Hex) as (q & Hq & Hnm & Hf).
      exists q. split; [exact Hq|split; [exact Hnm|]].
      cbn [py_iter obind]. rewrite Hf. reflexivity.
Qed.

Lemma get_playbooks_filter_witness :
  get_playbooks (Some YNull) true =
    Exn (HTTPException 500 "'NoneType' object has no attribute 'get'")
  /\ get_playbooks (Some (YMap [("playbooks", YList [YMap [("is_active", YBool false)];
                                                      YStr "notify"])])) true =
    Exn (HTTPException 500 "'str' object has no attribute 'get'").
Proof.
  split.
  - apply (proj1 (proj2 get_playbooks_filter) YNull true). intros m H. discriminate H.
  - assert (Hex : exists q, In q [YMap [("is_active", YBool false)]; YStr "notify"]
                            /\ forall pm, q <> YMap pm).
    { exists (YStr "notify"). split; [right; left; reflexivity|intros pm Hc; discriminate Hc]. }
    destruct (proj2 (proj2 (proj2 (proj2 (proj2 (proj2 get_playbooks_filter)))
               [("playbooks", YList [YMap [("is_active", YBool false)]; YStr "notify"])]
               [YMap [("is_active", YBool false)]; YStr "notify"] eq_refl)) Hex)
      as (q & Hq & Hnm & H).
    destruct Hq as [<-|[<-|[]]]; [exfalso; exact (Hnm _ eq_refl)|exact H].
Defined.

Lemma find_playbook_fresh (id : Z) (l : list yval) :
  Forall (fun q => exists m, q = YMap m /\ yeq_int (ymap_get "id" m) id = false) l ->
  find_playbook id l = Ret None.
Proof.
  intros H. rewrite <- (app_nil_r l). rewrite find_playbook_app_fresh by exact H. reflexivity.
Qed.

(** X15.  [get_playbook] never answers 404: a missing registry file gives
    HTTP 500 with detail "404: Playbook registry not found", a playbooks
    list in which no mapping carries the id gives HTTP 500 with detail
    "404: Playbook <id> not found", and every failure is a 500.  An empty
    registry file (None) and a null playbooks entry give HTTP 500 with
    their TypeError or AttributeError.  A found playbook is a mapping item
    of the playbooks list, the first whose id equals the requested one (a
    YAML [true] or [1.0] id counts as 1), all items before it being
    mappings, and it has a name. *)
Theorem get_playbook_outcome :
  (forall id : Z, get_playbook None id =
     Exn (HTTPException 500 "404: Playbook registry not found"))
  /\ (forall reg id code detail,
        get_playbook reg id = Exn (HTTPException code detail) -> code = 500%Z)
  /\ (forall id : Z, get_playbook (Some YNull) id =
        Exn (HTTPException 500 "'NoneType' object has no attribute 'get'"))
  /\ (forall (m : yobj) (id : Z), ymap_get "playbooks" m = Some YNull ->
        get_playbook (Some (YMap m)) id =
        Exn (HTTPException 500 "'NoneType' object is not iterable"))
  /\ (forall (m : yobj) (id : Z) (l : list yval),
        ymap_get_default "playbooks" (YList []) m = YList l ->
        Forall (fun q => exists pm, q = YMap pm /\ yeq_int (ymap_get "id" pm) id = false) l ->
        get_playbook (Some (YMap m)) id =
        Exn (HTTPException 500 ("404: Playbook " ++ py_int_str id ++ " not found")))
  /\ (forall (reg : yval) (id : Z) (p : yobj),
        get_playbook (Some reg) id = Ret p ->
        exists m items pre post, reg = YMap m
          /\ py_iter (ymap_get_default "playbooks" (YList []) m) = Ret items
          /\ items = app pre (YMap p :: post)
          /\ Forall (fun q => exists pm, q = YMap pm /\ yeq_int (ymap_get "id" pm) id = false) pre
          /\ yeq_int (ymap_get "id" p) id = true
          /\ exists n, ymap_get "name" p = Some n).
Proof.
  split; [reflexivity|split; [|split; [reflexivity|split; [|split]]]].
  - intros reg id code detail H. unfold get_playbook, route_guard in H.
    destruct (get_playbook_body reg id); congruence.
  - intros m id H. unfold get_playbook, get_playbook_body. cbn [py_get_default obind].
    unfold ymap_get_default. rewrite H. reflexivity.
  - intros m id l Hl Hall. unfold get_playbook, get_playbook_body. cbn [py_get_default obind].
    rewrite Hl. cbn [py_iter obind]. rewrite (find_playbook_fresh id l Hall). reflexivity.
  - intros reg id p H. unfold get_playbook, get_playbook_body, route_guard in H.
    destruct reg as [| | | | | |m]; cbn [py_get_default obind] in H; try discriminate.
    destruct (py_iter (ymap_get_default "playbooks" (YList []) m)) as [items|e] eqn:Ei;
      cbn [obind] in H; [|discriminate].
    destruct (find_playbook id items) as [[p'|]|e] eqn:Ef; cbn [obind] in H; try discriminate.
    destruct p' as [|kv q]; [discriminate|].
    cbn [py_getitem] in H.
    destruct (ymap_get "name" (kv :: q)) as [n|] eqn:En; cbn [obind] in H; [|discriminate].
    injection H as <-.
    destruct (find_playbook_some _ _ _ Ef) as (pre & post & Hit & Hpre & Hid).
    exists m, items, pre, post.
    split; [reflexivity|split; [exact Ei|split; [exact Hit|split; [exact Hpre|split; [exact Hid|]]]]].
    exists n. exact En.
Qed.

Lemma get_playbook_outcome_witness :
  get_playbook (Some (YMap [("playbooks", YList [YMap [("id", YInt 1); ("name", YStr "retrain")]])]))
    2 = Exn (HTTPException 500 ("404: Playbook " ++ py_int_str 2 ++ " not found")).
Proof.
  apply (proj1 (proj2 (proj2 (proj2 (proj2 get_playbook_outcome))))
           [("playbooks", YList [YMap [("id", YInt 1); ("name", YStr "retrain")]])] 2%Z
           [YMap [("id", YInt 1); ("name", YStr "retrain")]] eq_refl).
  constructor; [|constructor].
  eexists. split; [reflexivity|reflexivity].
Defined.

(** X16.  [create_playbook] checks name, trigger_conditions and actions in
    that order: the first one missing gives HTTP 500 with detail
    "400: Missing required field: <field>".  With all three present: an
    empty registry file gives HTTP 500 "'NoneType' object is not
    subscriptable", a registry without a playbooks key HTTP 500
    "'playbooks'", a null playbooks entry HTTP 500 "object of type
    'NoneType' has no len()", a string one HTTP 500 "'str' object has no
    attribute 'append'".  When the registry file is missing or its
    playbooks entry is a list, the new playbook is the request with
    id = (length of the list) + 1 and its two timestamps, appended after the
    existing items. *)
Theorem create_playbook_outcome :
  forall (reg : option yval) (data : yobj) (c u : string),
    (ymap_get "name" data = None ->
       create_playbook reg data c u =
       Exn (HTTPException 500 "400: Missing required field: name"))
    /\ (forall v, ymap_get "name" data = Some v ->
          ymap_get "trigger_conditions" data = None ->
          create_playbook reg data c u =
          Exn (HTTPException 500 "400: Missing required field: trigger_conditions"))
    /\ (forall v w, ymap_get "name" data = Some v ->
          ymap_get "trigger_conditions" data = Some w ->
          ymap_get "actions" data = None ->
          create_playbook reg data c u =
          Exn (HTTPException 500 "400: Missing required field: actions"))
    /\ (forall v w x, ymap_get "name" data = Some v ->
          ymap_get "trigger_conditions" data = Some w ->
          ymap_get "actions" data = Some x ->
          (reg = Some YNull ->
             create_playbook reg data c u =
             Exn (HTTPException 500 "'NoneType' object is not subscriptable"))
          /\ (forall m, reg = Some (YMap m) -> ymap_get "playbooks" m = None ->
                create_playbook reg data c u = Exn (HTTPException 500 "'playbooks'"))
          /\ (forall m, reg = Some (YMap m) -> ymap_get "playbooks" m = Some YNull ->
                create_playbook reg data c u =
                Exn (HTTPException 500 "object of type 'NoneType' has no len()"))
          /\ (forall m s, reg = Some (YMap m) -> ymap_get "playbooks" m = Some (YStr s) ->
                create_playbook reg data c u =
                Exn (HTTPException 500 "'str' object has no attribute 'append'"))
          /\ (forall m l, (reg = None /\ m = [("playbooks", YList [])] /\ l = [])
                          \/ (reg = Some (YMap m) /\ ymap_get "playbooks" m = Some (YList l)) ->
                let p := new_playbook (Z.of_nat (List.length l)) data c u in
                create_playbook reg data c u =
                  Ret (YMap (ymap_set "playbooks" (YList (app l [YMap p])) m), p)
                /\ ymap_get "id" p = Some (YInt (Z.of_nat (List.length l) + 1))
                /\ ymap_get "name" p = Some v)).
Proof.
  intros reg data c u. unfold create_playbook.
  split; [|split; [|split]].
  - intros Hn. cbn [check_required]. rewrite Hn. reflexivity.
  - intros v Hn Ht. cbn [check_required]. rewrite Hn, Ht. reflexivity.
  - intros v w Hn Ht Ha. cbn [check_required]. rewrite Hn, Ht, Ha. reflexivity.
  - intros v w x Hn Ht Ha. cbn [check_required]. rewrite Hn, Ht, Ha. cbn [obind].
    split; [intros ->; reflexivity|split; [|split; [|split]]].
    + intros m -> H. cbn [py_getitem]. rewrite H. reflexivity.
    + intros m -> H. cbn [py_getitem]. rewrite H. reflexivity.
    + intros m s -> H. cbn [py_getitem]. rewrite H. reflexivity.
    + intros m l [(-> & -> & ->)|(-> & H)]; cbv zeta.
      * split; [reflexivity|split; [apply new_playbook_get_id|]].
        rewrite new_playbook_get_name. exact Hn.
      * cbn [py_getitem]. rewrite H. cbn [obind py_len].
        split; [reflexivity|split; [apply new_playbook_get_id|]].
        rewrite new_playbook_get_name. exact Hn.
Qed.

Lemma create_playbook_outcome_witness :
  create_playbook None [("name", YStr "retrain")] "t0" "t1" =
  Exn (HTTPException 500 "400: Missing required field: trigger_conditions").
Proof.
  apply (proj1 (proj2 (create_playbook_outcome None [("name", YStr "retrain")] "t0" "t1"))
           (YStr "retrain")); reflexivity.
Defined.

(** X17.  Round trip: after a successful [create_playbook], when every
    playbook registered before is a mapping that does not carry the new id
    (number of registered playbooks + 1), [get_playbook] on the written
    registry with that id returns the created playbook, and [get_playbooks]
    lists the old playbooks followed by the new one. *)
Theorem create_then_get_playbook :
  forall (reg : option yval) (data : yobj) (c u : string) (r' : yval) (p : yobj),
    create_playbook reg data c u = Ret (r', p) ->
    Forall (fun q => exists m, q = YMap m /\
       yeq_int (ymap_get "id" m) (Z.of_nat (List.length (prior_playbooks reg)) + 1) = false)
      (prior_playbooks reg) ->
    get_playbook (Some r') (Z.of_nat (List.length (prior_playbooks reg)) + 1) = Ret p
    /\ get_playbooks (Some r') false = Ret (YList (app (prior_playbooks reg) [YMap p])).
Proof.
  intros reg data c u r' p H Hfresh.
  destruct (create_playbook_ret reg data c u r' p H) as (Hreq & Hp & m & ->).
  split.
  - unfold get_playbook, get_playbook_body. cbn [py_get_default obind].
    unfold ymap_get_default. rewrite ymap_get_set_same. cbn [py_iter obind].
    rewrite (find_playbook_app_fresh _ _ _ Hfresh). cbn [find_playbook].
    rewrite Hp, new_playbook_get_id. cbn [yeq_int]. rewrite Z.eqb_refl. cbn [obind].
    destruct (new_playbook _ data c u) as [|kv q] eqn:Enp.
    { exfalso. unfold new_playbook in Enp. exact (ymap_set_nonempty _ _ _ Enp). }
    cbn [obind]. rewrite <- Enp. cbn [py_getitem]. rewrite new_playbook_get_name.
    destruct (Hreq "name" ltac:(simpl; tauto)) as (v & ->). reflexivity.
  - unfold get_playbooks. cbn [py_get_default obind].
    unfold ymap_get_default. rewrite ymap_get_set_same. reflexivity.
Qed.

Lemma create_then_get_playbook_witness :
  get_playbook
    (Some (YMap [("playbooks", YList [YMap (new_playbook 0 [("name", YStr "retrain");
             ("trigger_conditions", YList []); ("actions", YList [YStr "notify"])] "t0" "t1")])]))
    1
  = Ret (new_playbook 0 [("name", YStr "retrain");
           ("trigger_conditions", YList []); ("actions", YList [YStr "notify"])] "t0" "t1").
Proof.
  apply (proj1 (create_then_get_playbook None
    [("name", YStr "retrain"); ("trigger_conditions", YList []); ("actions", YList [YStr "notify"])]
    "t0" "t1" _ _ eq_refl (Forall_nil _))).
Defined.

(** ** Playbook execution route, execution summary and routing *)

Lemma execute_source_body (actions : list string) :
  let ex := execute_playbook source_action_body actions in
  ex_status ex = "completed"
  /\ map ar_status (ex_actions_executed ex) = map (fun _ => "success") actions
  /\ List.length (ex_actions_executed ex) = List.length actions
  /\ List.length (ex_execution_log ex) = List.length actions.
Proof.
  cbv zeta. unfold execute_playbook.
  pose proof (run_actions_spec source_action_body actions) as (H1 & H2 & H3).
  destruct (run_actions source_action_body actions) as [results log]. cbn in *.
  split; [reflexivity|split; [exact H2|split; [|exact H3]]].
  rewrite <- (length_map ar_action results), H1. reflexivity.
Qed.




Lemma round_half_even_integer (x : Q) (z : Z) :
  x == inject_Z z -> round_half_even x = z.
Proof.
  intros Hx. unfold round_half_even.
  assert (Hf : Qfloor x = z).
  { apply Z.le_antisymm.
    - rewrite <- (Qfloor_Z z). apply Qfloor_resp_le. rewrite Hx. apply Qle_refl.
    - rewrite <- (Qfloor_Z z) at 1. apply Qfloor_resp_le. rewrite Hx. apply Qle_refl. }
  rewrite Hf.
  assert (Hr : Qltb (x - inject_Z z) (1 # 2) = true).
  { unfold Qltb. apply negb_true_iff. apply not_true_is_false. intros H.
    apply Qle_bool_iff in H. rewrite Hx in H.
    unfold Qle, Qminus, Qplus, Qopp, inject_Z in H. cbn [Qnum Qden] in H. lia. }
  rewrite Hr. reflexivity.
Qed.

Lemma round_places_integer (p : positive) (x : Q) (z : Z) :
  x == inject_Z z -> round_places p x == inject_Z z.
Proof.
  intros Hx. unfold round_places.
  rewrite (round_half_even_integer _ (z * Zpos p)).
  - unfold Qeq, inject_Z. cbn [Qnum Qden]. lia.
  - rewrite Hx. unfold Qeq, inject_Z, Qmult. cbn [Qnum Qden]. lia.
Qed.

Lemma status_sum_all (st : string) (rows : list exec_row) :
  rows <> [] -> Forall (fun r => er_status r = "completed") rows ->
  status_sum st rows =
  Some (if String.eqb "completed" st then Z.of_nat (List.length rows) else 0%Z).
Proof.
  intros Hne Hf. unfold status_sum. destruct rows as [|r0 rows0]; [contradiction|].
  f_equal. set (l := r0 :: rows0) in *. clearbody l. clear Hne.
  induction l as [|r l IH]; [destruct (String.eqb "completed" st); reflexivity|].
  inversion Hf as [|? ? Hr Hf']; subst. cbn [filter]. rewrite Hr.
  specialize (IH Hf'). destruct (String.eqb "completed" st); cbn [List.length]; lia.
Qed.

(** X19.  Every execution row the execute route stores has status
    "completed", so over any non-empty window of such rows
    [get_playbook_summary] reports all executions successful, 0 failed, 0
    running and a success_rate of 100; over an empty window the rate is 0
    and the status sums are NULL. *)
Theorem playbook_summary_of_executions :
  forall (yval_str : yval -> string) (rows : list exec_row),
    Forall (fun row => exists ins reg id ex,
              route_execute_playbook yval_str ins reg id = Ret (ex, row)) rows ->
    rows <> [] ->
    exists s, get_playbook_summary rows = Ret s
      /\ total_executions s = Z.of_nat (List.length rows)
      /\ successful_executions s = Some (Z.of_nat (List.length rows))
      /\ failed_executions s = Some 0%Z
      /\ running_executions s = Some 0%Z
      /\ success_rate s == 100.
Proof.
  intros ys rows Hall Hne.
  assert (Hc : Forall (fun r => er_status r = "completed") rows).
  { eapply Forall_impl; [|exact Hall]. intros row (ins & reg & id & ex & H).
    unfold route_execute_playbook in H.
    destruct (get_playbook reg id) as [p|e]; cbn [obind route_guard] in H; [|discriminate].
    destruct (py_iter _) as [acts|e]; cbn [obind route_guard] in H; [|discriminate].
    destruct (ins _); cbn [route_guard] in H; [discriminate|].
    injection H as _ <-. cbn [er_status]. apply (execute_source_body (map (action_str ys) acts)). }
  unfold get_playbook_summary.
  rewrite !(status_sum_all _ _ Hne Hc). cbn [String.eqb Ascii.eqb Bool.eqb].
  assert (Hpos : (0 <? Z.of_nat (List.length rows))%Z = true).
  { destruct rows; [contradiction|]. apply Z.ltb_lt. cbn [List.length]. lia. }
  rewrite Hpos. cbn [obind route_guard].
  eexists. split; [reflexivity|]. cbn.
  repeat split.
  unfold round2, round_places.
  assert (E : zdiv (Z.of_nat (List.length rows)) (Z.of_nat (List.length rows)) * 100 == 100).
  { unfold zdiv. assert (0 < inject_Z (Z.of_nat (List.length rows))) by (apply Z.ltb_lt in Hpos; unfold Qlt; simpl; lia).
    field. intro H0. rewrite H0 in H. discriminate. }
  rewrite (round_places_integer 100 _ 100 E). reflexivity.
Qed.

Lemma playbook_summary_of_executions_witness :
  exists s, get_playbook_summary [mk_exec_row 1 "completed"] = Ret s
    /\ failed_executions s = Some 0%Z /\ success_rate s == 100.
Proof.
  destruct (playbook_summary_of_executions (fun _ => "") [mk_exec_row 1 "completed"])
    as (s & Hs & _ & _ & Hf & _ & Hr).
  - constructor; [|constructor].
    exists (fun _ => None),
      (Some (YMap [("playbooks", YList [YMap [("id", YInt 1); ("name", YStr "retrain");
                                              ("actions", YList [YStr "notify"])]])])), 1%Z.
    eexists. reflexivity.
  - discriminate.
  - exists s. split; [exact Hs|split; [exact Hf|exact Hr]].
Defined.

Lemma literal_route_shadowed (m lit : string) (path : list string) :
  lit <> "" ->
  String.eqb "GET" m && path_matches [None] path = false ->
  String.eqb "GET" m && path_matches [Some lit] path = false.
Proof.
  intros Hlit H. destruct (String.eqb "GET" m); cbn [andb] in *; [|reflexivity].
  destruct path as [|s [|s' rest]]; cbn [path_matches] in *;
    try reflexivity; try (apply andb_false_r).
  rewrite andb_true_r in *. apply negb_false_iff in H. apply String.eqb_eq in H.
  subst s. apply String.eqb_neq. intros ->. exact (Hlit eq_refl).
Qed.

(** X20.  Routing of the playbooks router: the [/{playbook_id}] route is
    declared before [/templates] and [/summary] and its parameter matches
    any non-empty segment, so GET /playbooks/templates and GET
    /playbooks/summary go to [get_playbook]; no request ever reaches
    [get_playbook_templates] or [get_playbook_summary]. *)
Theorem playbook_routes_shadowed :
  dispatch "GET" ["templates"] = Some "get_playbook"
  /\ dispatch "GET" ["summary"] = Some "get_playbook"
  /\ forall (method : string) (path : list string),
       dispatch method path <> Some "get_playbook_templates"
       /\ dispatch method path <> Some "get_playbook_summary".
Proof.
  split; [reflexivity|split; [reflexivity|]].
  intros m path. unfold dispatch, playbook_routes. cbn [find fst snd].
  destruct (String.eqb "GET" m && path_matches [] path); [split; discriminate|].
  destruct (String.eqb "POST" m && path_matches [] path); [split; discriminate|].
  destruct (String.eqb "GET" m && path_matches [None] path) eqn:E3; [split; discriminate|].
  destruct (String.eqb "POST" m && path_matches [None; Some "execute"] path);
    [split; discriminate|].
  destruct (String.eqb "GET" m && path_matches [None; Some "executions"] path);
    [split; discriminate|].
  rewrite (literal_route_shadowed m "templates" path ltac:(discriminate) E3).
  rewrite (literal_route_shadowed m "summary" path ltac:(discriminate) E3).
  split; discriminate.
Qed.
